(** * nionswift model layer: Graphics, Operation, Symbolic

    A shallow embedding of the three modules of the repository

    - [Graphics.py]: rectangle fitting, bounds normalisation, hit testing;
    - [Operation.py]: the operation registry, [OperationItem] and
      [Resample2dOperation];
    - [nion/swift/model/Symbolic.py]: [ComputationVariable],
      [ComputationContext] and [Computation];

    followed by the properties stated about them.

    Conventions.  Python numbers of type [float] are modelled by exact
    rationals ([Q]); [int] by [Z].  A function that can raise returns a
    [result]; a method that mutates its object before it raises returns the
    object it leaves behind together with the [result].  Dictionaries are
    finite maps ([gmap]).  Tuples of two numbers keep the order of the
    source: a point is [(p[0], p[1])], a rectangle [(rect[0], rect[1])]. *)

From Stdlib Require Import ZArith QArith Qminmax Qabs Lqa Bool String List Lia.
From stdpp Require Import base option list gmap strings.

Local Open Scope string_scope.

Set Warnings "-register-all".

(** ** The Python runtime the three modules rely on *)

Module Py.

(** The exceptions that occur in the modelled code.  All of them derive
    from [Exception] but the last four, which derive from [BaseException]
    only: the three of the interpreter, and [OtherBaseException] for a
    class of that kind which a program defines itself. *)
Inductive exn : Type :=
| ZeroDivisionError
| KeyError (key : string)
| NameError (name : string)
| AttributeError (name : string)
| IndexError
| TypeError
| ValueError
| NotImplementedError
| AssertionError
| SystemExit
| KeyboardInterrupt
| GeneratorExit
| OtherBaseException (name : string).

(** [isinstance(e, Exception)]: what a handler [except Exception]
    catches. *)
Definition is_exception (e : exn) : bool :=
  match e with
  | SystemExit | KeyboardInterrupt | GeneratorExit | OtherBaseException _ =>
      false
  | _ => true
  end.

Inductive result (A : Type) : Type :=
| Ok (a : A)
| Raise (e : exn).

Arguments Ok {A} a.
Arguments Raise {A} e.

#[global] Instance result_ret : MRet result := fun A a => Ok a.

#[global] Instance result_bind : MBind result := fun A B k r =>
  match r with
  | Ok a => k a
  | Raise e => Raise e
  end.

(** Values that are stored in properties, dictionaries and attributes.
    [PObject] stands for any other object, known by its identity. *)
Inductive pyval : Type :=
| PNone
| PBool (b : bool)
| PInt (z : Z)
| PFloat (q : Q)
| PComplex (re im : Q)
| PStr (s : string)
| PTuple (items : list pyval)
| PObject (id : N).

(** [x / y] on floats: division by zero raises. *)
Definition truediv (x y : Q) : result Q :=
  if Qeq_bool y 0 then Raise ZeroDivisionError else Ok (x / y)%Q.

(** [x < y] and [x > y] on floats. *)
Definition lt (x y : Q) : bool := negb (Qle_bool y x).
Definition gt (x y : Q) : bool := lt y x.
Definition le (x y : Q) : bool := Qle_bool x y.

(** [==] between numbers, strings and [None]: numbers compare by value
    across [bool], [int] and [float]. *)
Definition as_number (v : pyval) : option Q :=
  match v with
  | PBool b => Some (if b then 1%Q else 0%Q)
  | PInt z => Some (inject_Z z)
  | PFloat q => Some q
  | _ => None
  end.

Definition eq (a b : pyval) : bool :=
  match as_number a, as_number b with
  | Some x, Some y => Qeq_bool x y
  | _, _ =>
      match a, b with
      | PNone, PNone => true
      | PStr s, PStr t => String.eqb s t
      | _, _ => false
      end
  end.

(** Truth value testing, [bool(v)]. *)
Definition truthy (v : pyval) : bool :=
  match v with
  | PNone => false
  | PBool b => b
  | PInt z => negb (z =? 0)%Z
  | PFloat q => negb (Qeq_bool q 0)
  | PComplex re im => negb (Qeq_bool re 0 && Qeq_bool im 0)
  | PStr s => negb (String.eqb s "")
  | PTuple items => match items with [] => false | _ => true end
  | PObject _ => true
  end.

(** The parts of the built-in conversions that read or print text. *)
Record Text : Type := {
  int_of_string : string -> result Z;
  float_of_string : string -> result Q;
  complex_of_string : string -> result (Q * Q);
  (** [str(v)] for a number, a tuple or an object *)
  str_of_value : pyval -> string
}.

(** An instance for running examples: no string is a number. *)
Definition plain_text : Text :=
  {| int_of_string := fun _ => Raise ValueError;
     float_of_string := fun _ => Raise ValueError;
     complex_of_string := fun _ => Raise ValueError;
     str_of_value := fun _ => "" |}.

Section Conversions.

Variable text : Text.

(** [int(v)]: floats are truncated towards zero. *)
Definition to_int (v : pyval) : result Z :=
  match v with
  | PBool b => Ok (if b then 1 else 0)%Z
  | PInt z => Ok z
  | PFloat q => Ok (Z.quot (Qnum q) (Zpos (Qden q)))
  | PStr s => int_of_string text s
  | _ => Raise TypeError
  end.

(** [float(v)]. *)
Definition to_float (v : pyval) : result Q :=
  match v with
  | PBool b => Ok (if b then 1 else 0)%Q
  | PInt z => Ok (inject_Z z)
  | PFloat q => Ok q
  | PStr s => float_of_string text s
  | _ => Raise TypeError
  end.

(** [complex(v)]. *)
Definition to_complex (v : pyval) : result (Q * Q) :=
  match v with
  | PBool b => Ok (if b then 1 else 0, 0)%Q
  | PInt z => Ok (inject_Z z, 0%Q)
  | PFloat q => Ok (q, 0%Q)
  | PComplex re im => Ok (re, im)
  | PStr s => complex_of_string text s
  | _ => Raise TypeError
  end.

(** [complex(a, b)], the sum of [a] and [b] times [1j]; neither argument
    may be a string. *)
Definition to_complex2 (a b : pyval) : result (Q * Q) :=
  match a, b with
  | PStr _, _ | _, PStr _ => Raise TypeError
  | _, _ =>
      x ← to_complex a;
      y ← to_complex b;
      Ok (x.1 - y.2, x.2 + y.1)%Q
  end.

(** [complex] applied to the unpacked [args] (line 85); a string unpacks
    into its characters. *)
Definition to_complex_star (args : pyval) : result (Q * Q) :=
  match args with
  | PTuple [] | PStr "" => Ok (0, 0)%Q
  | PTuple [a] => to_complex a
  | PTuple [a; b] => to_complex2 a b
  | PStr (String c "") => to_complex (PStr (String c ""))
  | _ => Raise TypeError
  end.

(** [str(v)]. *)
Definition to_str (v : pyval) : string :=
  match v with
  | PStr s => s
  | PNone => "None"
  | PBool true => "True"
  | PBool false => "False"
  | _ => str_of_value text v
  end.

End Conversions.

(** [s.split(sep)] for a separator of one character, and the line feed. *)
Fixpoint split (sep : Ascii.ascii) (s : string) : list string :=
  match s with
  | EmptyString => [EmptyString]
  | String c rest =>
      let parts := split sep rest in
      if Ascii.eqb c sep then EmptyString :: parts
      else match parts with
           | part :: parts => String c part :: parts
           | [] => [String c EmptyString]
           end
  end.

Definition LF : Ascii.ascii := Ascii.ascii_of_nat 10.
Definition newline : string := String LF EmptyString.

(** [needle in haystack] on strings. *)
Definition contains (haystack needle : string) : bool :=
  match String.index 0 needle haystack with
  | Some _ => true
  | None => false
  end.

End Py.

Import Py.

(** ** Graphics.py *)

Module Graphics.

Local Open Scope Q_scope.

Definition point : Type := Q * Q.
Definition rect : Type := point * point.

(** Componentwise equality of numbers (the [==] of Python on tuples of
    floats). *)
Definition point_eq (p q : point) : Prop := p.1 == q.1 /\ p.2 == q.2.
Definition rect_eq (r s : rect) : Prop := point_eq r.1 s.1 /\ point_eq r.2 s.2.

(** [fit_to_aspect_ratio(rect, aspect_ratio)], lines 14-23. *)
Definition fit_to_aspect_ratio (rect : rect) (aspect_ratio : Q) : result Graphics.rect :=
  if Py.gt rect.2.2 (aspect_ratio * rect.2.1) then
    let new_size := (rect.2.1, rect.2.1 * aspect_ratio) in
    let new_origin := (rect.1.1, rect.1.2 + 0.5 * (rect.2.2 - new_size.2)) in
    Ok (new_origin, new_size)
  else
    w ← Py.truediv rect.2.2 aspect_ratio;
    let new_size := (w, rect.2.2) in
    let new_origin := (rect.1.1 + 0.5 * (rect.2.1 - new_size.1), rect.1.2) in
    Ok (new_origin, new_size).

(** [fit_to_size(rect, fit_size)], lines 26-27.  The quotient is exact
    here and rounded in the source: where [ratio * rect[1][0]] and
    [rect[1][1]] are equal as exact numbers, the comparison on line 15
    can go the other way in the source, as for the sizes [(49, 1)], where
    [49 * (1.0 / 49.0) < 1].  Nothing is stated below that depends on the
    branch taken at such an input. *)
Definition fit_to_size (rect : rect) (fit_size : point) : result Graphics.rect :=
  ratio ← Py.truediv fit_size.2 fit_size.1;
  fit_to_aspect_ratio rect ratio.


(** [midpoint(p1, p2)], lines 38-39. *)
Definition midpoint (p1 p2 : point) : point :=
  (0.5 * (p1.1 + p2.1), 0.5 * (p1.2 + p2.2)).

(** The coordinate mapping handed to [test]: an object of the host view.
    Only the two conversions that hit testing calls are needed. *)
Record Mapping : Type := {
  map_point_image_norm_to_widget : point -> point;
  map_size_image_norm_to_widget : point -> point
}.

(** A mapping that maps image-normalised coordinates 1:1 to the widget. *)
Definition identity_mapping : Mapping :=
  {| map_point_image_norm_to_widget := fun p => p;
     map_size_image_norm_to_widget := fun s => s |}.

(** What a graphic tells its listeners: [notify_set_property(key, value)] of
    the storage base class followed by [notify_listeners("graphic_changed")]. *)
Inductive notification : Type :=
| SetProperty (key : string) (value : rect)
| SetPointProperty (key : string) (value : point)
| GraphicChanged.

(** The normalisation both [__set_bounds] setters perform (lines 210-214 and
    326-330): two consecutive [if]s, each rebinding [bounds]. *)
Definition normalize_bounds (bounds : rect) : rect :=
  let bounds :=
    if Py.lt bounds.2.1 0 then
      ((bounds.1.1 + bounds.2.1, bounds.1.2), (- bounds.2.1, bounds.2.2))
    else bounds in
  let bounds :=
    if Py.lt bounds.2.2 0 then
      ((bounds.1.1, bounds.1.2 + bounds.2.2), (bounds.2.1, - bounds.2.2))
    else bounds in
  bounds.

Section HitTesting.

(** [math.sqrt] on floats, a function of the Python runtime. *)
Variable sqrt : Q -> Q.

(** [distance(p1, p2)], lines 34-35. *)
Definition distance (p1 p2 : point) : Q :=
  sqrt ((p2.1 - p1.1) ^ 2 + (p2.2 - p1.2) ^ 2).

(** [Graphic.test_point], lines 140-141. *)
Definition test_point (p1 p2 : point) (radius : Q) : bool :=
  Py.lt (sqrt ((p1.1 - p2.1) ^ 2 + (p1.2 - p2.2) ^ 2)) radius.

(** [Graphic.get_closest_point_on_line], lines 143-153. *)
Definition get_closest_point_on_line (start end_ p : point) : result point :=
  let c := (p.1 - start.1, p.2 - start.2) in
  let v := (end_.1 - start.1, end_.2 - start.2) in
  let length := sqrt (v.1 ^ 2 + v.2 ^ 2) in
  v0 ← Py.truediv v.1 length;
  v1 ← Py.truediv v.2 length;
  let v := (v0, v1) in
  let t := v.1 * c.1 + v.2 * c.2 in
  if Py.lt t 0 then Ok start
  else if Py.gt t length then Ok end_
  else Ok (start.1 + v.1 * t, start.2 + v.2 * t).

(** [Graphic.test_line], lines 155-157. *)
Definition test_line (start end_ p : point) (radius : Q) : result bool :=
  cp ← get_closest_point_on_line start end_ p;
  Ok (Py.lt (sqrt ((p.1 - cp.1) ^ 2 + (p.2 - cp.2) ^ 2)) radius).

(** [Graphic.test_inside_bounds], lines 158-159. *)
Definition test_inside_bounds (bounds : rect) (p : point) (radius : Q) : bool :=
  Py.gt p.1 bounds.1.1 && Py.le p.1 (bounds.1.1 + bounds.2.1)
  && Py.gt p.2 bounds.1.2 && Py.le p.2 (bounds.1.2 + bounds.2.2).

(** The body shared by [RectangleGraphic.test] (lines 225-246) and
    [EllipseGraphic.test] (lines 341-362), which are the same text. *)
Definition test_rectangle_like (bounds : rect) (mapping : Mapping)
    (test_point_ : point) (move_only : bool) : option string :=
  let origin := map_point_image_norm_to_widget mapping bounds.1 in
  let size := map_size_image_norm_to_widget mapping bounds.2 in
  if negb move_only && test_point origin test_point_ 4 then
    Some "top-left"
  else if negb move_only
          && test_point (origin.1, origin.2 + size.2) test_point_ 4 then
    Some "top-right"
  else if negb move_only
          && test_point (origin.1 + size.1, origin.2 + size.2) test_point_ 4 then
    Some "bottom-right"
  else if negb move_only
          && test_point (origin.1 + size.1, origin.2) test_point_ 4 then
    Some "bottom-left"
  else if test_inside_bounds (origin, size) test_point_ 4 then
    Some "all"
  else None.

End HitTesting.

(** *** RectangleGraphic *)

Module RectangleGraphic.

Record t : Type := {
  bounds : rect;
  notifications : list notification
}.

(** [__init__], lines 191-196. *)
Definition init : t :=
  {| bounds := ((0, 0), (1, 1)); notifications := [] |}.

(** [__set_bounds], lines 209-218. *)
Definition set_bounds (self : t) (new_bounds : rect) : t :=
  let stored := normalize_bounds new_bounds in
  {| bounds := stored;
     notifications :=
       notifications self ++ [SetProperty "bounds" stored; GraphicChanged] |}.

(** [test], lines 225-246. *)
Definition test (sqrt : Q -> Q) (self : t) (mapping : Mapping)
    (test_point_ : point) (move_only : bool) : option string :=
  test_rectangle_like sqrt (bounds self) mapping test_point_ move_only.

End RectangleGraphic.

(** *** EllipseGraphic *)

Module EllipseGraphic.

Record t : Type := {
  bounds : rect;
  notifications : list notification
}.

(** [__init__], lines 307-312. *)
Definition init : t :=
  {| bounds := ((0, 0), (1, 1)); notifications := [] |}.

(** [__set_bounds], lines 325-334. *)
Definition set_bounds (self : t) (new_bounds : rect) : t :=
  let stored := normalize_bounds new_bounds in
  {| bounds := stored;
     notifications :=
       notifications self ++ [SetProperty "bounds" stored; GraphicChanged] |}.

(** [test], lines 341-362. *)
Definition test (sqrt : Q -> Q) (self : t) (mapping : Mapping)
    (test_point_ : point) (move_only : bool) : option string :=
  test_rectangle_like sqrt (bounds self) mapping test_point_ move_only.

End EllipseGraphic.

(** *** LineGraphic *)

Module LineGraphic.

Record t : Type := {
  start : point;
  end_ : point;
  notifications : list notification
}.

(** [__init__], lines 417-423. *)
Definition init : t :=
  {| start := (0, 0); end_ := (1, 1); notifications := [] |}.

(** [__set_start] and [__set_end], lines 439-447: no normalisation. *)
Definition set_start (self : t) (p : point) : t :=
  {| start := p; end_ := end_ self;
     notifications :=
       notifications self ++ [SetPointProperty "start" p; GraphicChanged] |}.

Definition set_end (self : t) (p : point) : t :=
  {| start := start self; end_ := p;
     notifications :=
       notifications self ++ [SetPointProperty "end" p; GraphicChanged] |}.

(** [test], lines 457-472. *)
Definition test (sqrt : Q -> Q) (self : t) (mapping : Mapping)
    (test_point_ : point) (move_only : bool) : result (option string) :=
  let p1 := map_point_image_norm_to_widget mapping (start self) in
  let p2 := map_point_image_norm_to_widget mapping (end_ self) in
  if negb move_only && test_point sqrt p1 test_point_ 4 then
    Ok (Some "start")
  else if negb move_only && test_point sqrt p2 test_point_ 4 then
    Ok (Some "end")
  else
    on_line ← test_line sqrt p1 p2 test_point_ 4;
    if (on_line : bool) then Ok (Some "all") else Ok None.

End LineGraphic.

(** An executable stand-in for [math.sqrt] used to run examples: the
    roots of numerator and denominator rounded down, exact when both are
    squares. *)
Definition sqrt_floor (x : Q) : Q :=
  Z.sqrt (Qnum x) # Pos.sqrt (Qden x).

(** *** Dragging *)

(** The conversions of the mapping that dragging calls. *)
Record DragMapping : Type := {
  map_point_widget_to_image : point -> point;
  map_point_widget_to_image_norm : point -> point;
  map_point_image_norm_to_image : point -> point;
  map_point_image_to_image_norm : point -> point;
  map_size_image_to_image_norm : point -> point
}.

(** The modifier keys at drag time. *)
Record Modifiers : Type := {
  alt : bool;
  shift : bool
}.

(** Lines 48-124 of [adjust_rectangle_like]: the new bounds in image
    coordinates from the old origin and size, the drag [delta] and the part
    that is dragged. *)
Definition adjusted_bounds (old_origin old_size delta : point)
    (part0 : string) (modifiers : Modifiers) : rect :=
  let old_center :=
    (old_origin.1 + 0.5 * old_size.1, old_origin.2 + 0.5 * old_size.2) in
  if String.eqb part0 "top-left" then
    if alt modifiers then
      let new_top_left := (old_origin.1 + delta.1, old_origin.2 + delta.2) in
      let new_top_left :=
        if shift modifiers then
          let half_size := (old_center.1 - new_top_left.1,
                            old_center.2 - new_top_left.2) in
          if Py.gt half_size.1 half_size.2
          then (old_center.1 + half_size.2, new_top_left.2)
          else (new_top_left.1, old_center.2 + half_size.1)
        else new_top_left in
      let new_bottom_right := (2 * old_center.1 - new_top_left.1,
                               2 * old_center.2 - new_top_left.2) in
      (new_top_left, (new_bottom_right.1 - new_top_left.1,
                      new_bottom_right.2 - new_top_left.2))
    else
      let new_bounds := ((old_origin.1 + delta.1, old_origin.2 + delta.2),
                         (old_size.1 - delta.1, old_size.2 - delta.2)) in
      if shift modifiers then
        if Py.gt new_bounds.2.1 new_bounds.2.2
        then ((new_bounds.1.1 + new_bounds.2.1 - new_bounds.2.2, new_bounds.1.2),
              (new_bounds.2.2, new_bounds.2.2))
        else ((new_bounds.1.1, new_bounds.1.2 + new_bounds.2.2 - new_bounds.2.1),
              (new_bounds.2.1, new_bounds.2.1))
      else new_bounds
  else if String.eqb part0 "top-right" then
    if alt modifiers then
      let new_top_right :=
        (old_origin.1 + delta.1, old_origin.2 + old_size.2 + delta.2) in
      let new_top_right :=
        if shift modifiers then
          let half_size := (old_center.1 - new_top_right.1,
                            old_center.2 - new_top_right.2) in
          if Py.gt half_size.1 half_size.2
          then (old_center.1 + half_size.2, new_top_right.2)
          else (new_top_right.1, old_center.2 + half_size.1)
        else new_top_right in
      let new_bottom_left := (2 * old_center.1 - new_top_right.1,
                              2 * old_center.2 - new_top_right.2) in
      ((new_top_right.1, new_bottom_left.2),
       (new_bottom_left.1 - new_top_right.1,
        new_top_right.2 - new_bottom_left.2))
    else
      let new_bounds := ((old_origin.1 + delta.1, old_origin.2),
                         (old_size.1 - delta.1, old_size.2 + delta.2)) in
      if shift modifiers then
        if Py.gt new_bounds.2.1 new_bounds.2.2
        then ((new_bounds.1.1 + new_bounds.2.1 - new_bounds.2.2, new_bounds.1.2),
              (new_bounds.2.2, new_bounds.2.2))
        else ((new_bounds.1.1, new_bounds.1.2),
              (new_bounds.2.1, new_bounds.2.1))
      else new_bounds
  else if String.eqb part0 "bottom-right" then
    if alt modifiers then
      let new_bottom_right :=
        (old_origin.1 + old_size.1 + delta.1,
         old_origin.2 + old_size.2 + delta.2) in
      let new_bottom_right :=
        if shift modifiers then
          let half_size := (old_center.1 - new_bottom_right.1,
                            old_center.2 - new_bottom_right.2) in
          if Py.gt half_size.1 half_size.2
          then (old_center.1 + half_size.2, new_bottom_right.2)
          else (new_bottom_right.1, old_center.2 + half_size.1)
        else new_bottom_right in
      let new_top_left := (2 * old_center.1 - new_bottom_right.1,
                           2 * old_center.2 - new_bottom_right.2) in
      (new_top_left, (new_bottom_right.1 - new_top_left.1,
                      new_bottom_right.2 - new_top_left.2))
    else
      let new_bounds := ((old_origin.1, old_origin.2),
                         (old_size.1 + delta.1, old_size.2 + delta.2)) in
      if shift modifiers then
        if Py.gt new_bounds.2.1 new_bounds.2.2
        then ((new_bounds.1.1, new_bounds.1.2),
              (new_bounds.2.2, new_bounds.2.2))
        else ((new_bounds.1.1, new_bounds.1.2),
              (new_bounds.2.1, new_bounds.2.1))
      else new_bounds
  else if String.eqb part0 "bottom-left" then
    if alt modifiers then
      let new_bottom_left :=
        (old_origin.1 + old_size.1 + delta.1, old_origin.2 + delta.2) in
      let new_bottom_left :=
        if shift modifiers then
          let half_size := (old_center.1 - new_bottom_left.1,
                            old_center.2 - new_bottom_left.2) in
          if Py.gt half_size.1 half_size.2
          then (old_center.1 + half_size.2, new_bottom_left.2)
          else (new_bottom_left.1, old_center.2 + half_size.1)
        else new_bottom_left in
      let new_top_right := (2 * old_center.1 - new_bottom_left.1,
                            2 * old_center.2 - new_bottom_left.2) in
      ((new_top_right.1, new_bottom_left.2),
       (new_bottom_left.1 - new_top_right.1,
        new_top_right.2 - new_bottom_left.2))
    else
      let new_bounds := ((old_origin.1, old_origin.2 + delta.2),
                         (old_size.1 + delta.1, old_size.2 - delta.2)) in
      if shift modifiers then
        if Py.gt new_bounds.2.1 new_bounds.2.2
        then ((new_bounds.1.1, new_bounds.1.2),
              (new_bounds.2.2, new_bounds.2.2))
        else ((new_bounds.1.1, new_bounds.1.2 + new_bounds.2.2 - new_bounds.2.1),
              (new_bounds.2.1, new_bounds.2.1))
      else new_bounds
  else if String.eqb part0 "all" then
    ((old_origin.1 + delta.1, old_origin.2 + delta.2), old_size)
  else (old_origin, old_size).

(** [adjust_rectangle_like(mapping, original, current, part, modifiers)],
    lines 42-125.  [part] is the part identifier followed by the bounds
    captured by [begin_drag]. *)
Definition adjust_rectangle_like (mapping : DragMapping)
    (original current : point) (part : string * rect)
    (modifiers : Modifiers) : rect :=
  let o := map_point_widget_to_image mapping original in
  let p := map_point_widget_to_image mapping current in
  let old_origin := map_point_image_norm_to_image mapping part.2.1 in
  let old_size := map_point_image_norm_to_image mapping part.2.2 in
  let delta := (p.1 - o.1, p.2 - o.2) in
  let new_bounds := adjusted_bounds old_origin old_size delta part.1 modifiers in
  (map_point_image_to_image_norm mapping new_bounds.1,
   map_size_image_to_image_norm mapping new_bounds.2).

(** [RectangleGraphic.adjust_part], lines 261-262, and
    [EllipseGraphic.adjust_part], lines 377-378: the adjusted bounds are
    assigned to the [bounds] property. *)
Definition rectangle_adjust_part (self : RectangleGraphic.t)
    (mapping : DragMapping) (original current : point) (part : string * rect)
    (modifiers : Modifiers) : RectangleGraphic.t :=
  RectangleGraphic.set_bounds self
    (adjust_rectangle_like mapping original current part modifiers).


(** [begin_drag], lines 256-257 and 372-373, and the part a drag of
    [part0] then works with. *)
Definition rectangle_begin_drag (self : RectangleGraphic.t) : rect :=
  RectangleGraphic.bounds self.

Definition rectangle_part (part0 : string) (self : RectangleGraphic.t)
    : string * rect :=
  (part0, rectangle_begin_drag self).

(** [LineGraphic.adjust_part], lines 485-508.  [part] is the part
    identifier followed by the start and the end captured by
    [begin_drag]. *)
Definition line_adjust_part (self : LineGraphic.t) (mapping : DragMapping)
    (original current : point) (part : string * point * point)
    (modifiers : Modifiers) : LineGraphic.t :=
  let o_image := map_point_widget_to_image mapping original in
  let p_image := map_point_widget_to_image mapping current in
  let end_image :=
    map_point_image_norm_to_image mapping (LineGraphic.end_ self) in
  let start_image :=
    map_point_image_norm_to_image mapping (LineGraphic.start self) in
  if String.eqb part.1.1 "start" then
    let p_image :=
      if shift modifiers then
        if Py.gt (Qabs (p_image.1 - end_image.1)) (Qabs (p_image.2 - end_image.2))
        then (p_image.1, end_image.2)
        else (end_image.1, p_image.2)
      else p_image in
    LineGraphic.set_start self (map_point_image_to_image_norm mapping p_image)
  else if String.eqb part.1.1 "end" then
    let p_image :=
      if shift modifiers then
        if Py.gt (Qabs (p_image.1 - start_image.1))
                 (Qabs (p_image.2 - start_image.2))
        then (p_image.1, start_image.2)
        else (start_image.1, p_image.2)
      else p_image in
    LineGraphic.set_end self (map_point_image_to_image_norm mapping p_image)
  else if String.eqb part.1.1 "all" then
    let o := map_point_widget_to_image_norm mapping original in
    let p := map_point_widget_to_image_norm mapping current in
    let self :=
      LineGraphic.set_start self
        (part.1.2.1 + (p.1 - o.1), part.1.2.2 + (p.2 - o.2)) in
    LineGraphic.set_end self
      (part.2.1 + (p.1 - o.1), part.2.2 + (p.2 - o.2))
  else self.

(** The four corner parts of a rectangle or an ellipse. *)
Definition corners : list string :=
  ["top-left"; "top-right"; "bottom-right"; "bottom-left"].

(** What can happen to the bounds of a RectangleGraphic after [__init__]:
    assignments to [bounds] (also those of [build] and [deepcopy_from],
    lines 197-205) and drags. *)
Inductive rectangle_reachable : RectangleGraphic.t -> Prop :=
| reach_init : rectangle_reachable RectangleGraphic.init
| reach_set_bounds (self : RectangleGraphic.t) (bounds : rect) :
    rectangle_reachable self ->
    rectangle_reachable (RectangleGraphic.set_bounds self bounds)
| reach_adjust_part (self : RectangleGraphic.t) (mapping : DragMapping)
    (original current : point) (part : string * rect) (modifiers : Modifiers) :
    rectangle_reachable self ->
    rectangle_reachable
      (rectangle_adjust_part self mapping original current part modifiers).

(** A mapping for an image of 100 by 200 pixels shown 1:1. *)
Definition pixel_mapping : DragMapping :=
  {| map_point_widget_to_image := fun p => p;
     map_point_widget_to_image_norm := fun p => (p.1 / 100, p.2 / 200);
     map_point_image_norm_to_image := fun p => (p.1 * 100, p.2 * 200);
     map_point_image_to_image_norm := fun p => (p.1 / 100, p.2 / 200);
     map_size_image_to_image_norm := fun s => (s.1 / 100, s.2 / 200) |}.

(** *** Notions used to state the properties *)

(** The interval an origin and a size of either sign describe along one
    axis, and the region a rectangle describes. *)
Definition low_edge (origin size : Q) : Q := Qmin origin (origin + size).
Definition high_edge (origin size : Q) : Q := Qmax origin (origin + size).

Definition same_region (r s : rect) : Prop :=
  low_edge r.1.1 r.2.1 == low_edge s.1.1 s.2.1
  /\ high_edge r.1.1 r.2.1 == high_edge s.1.1 s.2.1
  /\ low_edge r.1.2 r.2.2 == low_edge s.1.2 s.2.2
  /\ high_edge r.1.2 r.2.2 == high_edge s.1.2 s.2.2.

End Graphics.

(** ** Operation.py *)

Module Operation.

(** A numpy array: its shape, its dtype and its elements in row-major
    order.  [data.copy()] is a new array equal to [data] by value. *)
Record ndarray : Type := {
  shape : list Z;
  dtype : string;
  elements : list Q
}.

Definition ndarray_copy (data : ndarray) : ndarray := data.

(** The shape of an array as the tuple of ints Python code sees. *)
Definition shape_tuple (data : ndarray) : list pyval := map PInt (shape data).

(** [DataItem.Calibration(origin, scale, units)]. *)
Record Calibration : Type := {
  origin : Q;
  scale : Q;
  units : string
}.

(** One entry of an operation's [description] list. *)
Record description_entry : Type := {
  entry_name : string;
  entry_property : string;
  entry_type : string;
  entry_default : pyval
}.

Inductive operation_class : Type :=
| FFTOperation
| IFFTOperation
| InvertOperation
| GaussianBlurOperation
| Crop2dOperation
| Resample2dOperation
| HistogramOperation
| LineProfileOperation
| ConvertToScalarOperation.

(** An instance of [Operation]: its class, the three fields [__init__] of
    the base class sets (lines 220-223) and the attributes its own
    [__init__] adds. *)
Record Operation : Type := {
  op_class : operation_class;
  name : string;
  operation_id : string;
  description : list description_entry;
  attributes : gmap string pyval
}.

(** The constructors, lines 255-461.  [_] is [gettext.gettext], the
    identity where no translation is installed. *)
Definition new_FFTOperation : Operation :=
  {| op_class := FFTOperation; name := "FFT"; operation_id := "fft-operation";
     description := []; attributes := ∅ |}.

Definition new_IFFTOperation : Operation :=
  {| op_class := IFFTOperation; name := "Inverse FFT";
     operation_id := "inverse-fft-operation";
     description := []; attributes := ∅ |}.

Definition new_InvertOperation : Operation :=
  {| op_class := InvertOperation; name := "Invert";
     operation_id := "invert-operation";
     description := []; attributes := ∅ |}.

Definition new_GaussianBlurOperation : Operation :=
  {| op_class := GaussianBlurOperation; name := "Gaussian Blur";
     operation_id := "gaussian-blur-operation";
     description :=
       [ {| entry_name := "Radius"; entry_property := "sigma";
            entry_type := "scalar"; entry_default := PFloat 0.3 |} ];
     attributes := {[ "sigma" := PFloat 0.3 ]} |}.

Definition unit_bounds : pyval :=
  PTuple [PTuple [PFloat 0; PFloat 0]; PTuple [PFloat 1; PFloat 1]].

Definition new_Crop2dOperation : Operation :=
  {| op_class := Crop2dOperation; name := "Crop";
     operation_id := "crop-operation";
     description :=
       [ {| entry_name := "Bounds"; entry_property := "bounds";
            entry_type := "rectangle"; entry_default := unit_bounds |} ];
     attributes := {[ "bounds" := unit_bounds ]} |}.

(** [Resample2dOperation.__init__], lines 356-363: the description gives
    [None] as default of both parameters, the instance starts with
    [width = 0] and [height = 0]. *)
Definition new_Resample2dOperation : Operation :=
  {| op_class := Resample2dOperation; name := "Resample";
     operation_id := "resample-operation";
     description :=
       [ {| entry_name := "Width"; entry_property := "width";
            entry_type := "integer-field"; entry_default := PNone |};
         {| entry_name := "Height"; entry_property := "height";
            entry_type := "integer-field"; entry_default := PNone |} ];
     attributes := <["height" := PInt 0]> (<["width" := PInt 0]> ∅) |}.

Definition new_HistogramOperation : Operation :=
  {| op_class := HistogramOperation; name := "Histogram";
     operation_id := "histogram-operation";
     description := []; attributes := {[ "bins" := PInt 256 ]} |}.

Definition default_vector : pyval :=
  PTuple [PTuple [PFloat 0.25; PFloat 0.25]; PTuple [PFloat 0.75; PFloat 0.75]].

Definition new_LineProfileOperation : Operation :=
  {| op_class := LineProfileOperation; name := "Line Profile";
     operation_id := "line-profile-operation";
     description :=
       [ {| entry_name := "Vector"; entry_property := "vector";
            entry_type := "line"; entry_default := default_vector |} ];
     attributes := {[ "vector" := default_vector ]} |}.

Definition new_ConvertToScalarOperation : Operation :=
  {| op_class := ConvertToScalarOperation; name := "Convert to Scalar";
     operation_id := "convert-to-scalar-operation";
     description := []; attributes := ∅ |}.

(** [setattr(operation, property_id, value)]. *)
Definition setattr (self : Operation) (property_id : string) (value : pyval)
    : Operation :=
  {| op_class := op_class self; name := name self;
     operation_id := operation_id self; description := description self;
     attributes := <[property_id := value]> (attributes self) |}.

(** [Operation.get_property], lines 226-227: the attribute when the
    instance has it, the default otherwise.  It is called with the
    property keys of descriptions. *)
Definition get_property (self : Operation) (property_id : string)
    (default_value : pyval) : pyval :=
  match attributes self !! property_id with
  | Some value => value
  | None => default_value
  end.

(** [tuple[i]] for a non-negative literal index, and [tuple[-1]]. *)
Definition index (items : list pyval) (i : nat) : result pyval :=
  match items !! i with
  | Some v => Ok v
  | None => Raise IndexError
  end.

Definition index_last (items : list pyval) : result pyval :=
  match last items with
  | Some v => Ok v
  | None => Raise IndexError
  end.

(** What [Operation.py] takes from numpy, scipy and [nion.swift.Image]. *)
Record Numerics : Type := {
  (** [Image.scaled(data, (height, width))] *)
  Image_scaled : ndarray -> pyval * pyval -> result ndarray;
  (** [Image.is_shape_and_dtype_rgba(..) or Image.is_shape_and_dtype_rgb(..)] *)
  is_shape_and_dtype_rgb_or_rgba : list pyval -> string -> bool;
  (** [process_data_in_place] of the eight classes that override it with
      numpy and scipy code *)
  numeric_process_data_in_place : Operation -> ndarray -> result ndarray;
  (** [get_processed_calibrations] of the classes that override it using
      array arithmetic: FFT, inverse FFT and line profile *)
  numeric_processed_calibrations :
    Operation -> list pyval -> string -> list Calibration ->
    result (list Calibration);
  (** [get_processed_data_shape_and_dtype] of the classes that override
      it: FFT, crop, histogram, line profile, convert to scalar *)
  numeric_processed_data_shape_and_dtype :
    Operation -> list pyval -> string -> result (list pyval * string)
}.

(** An instance for running examples: scaling yields zeros in the
    requested shape, colour data is [uint8] with a last dimension of 3 or
    4, and the numpy and scipy kernels are absent. *)
Definition plain_numerics : Numerics :=
  {| Image_scaled := fun data size =>
       match size with
       | (PInt h, PInt w) =>
           Ok {| shape := [h; w]; dtype := dtype data;
                 elements := repeat 0%Q (Z.to_nat (h * w)) |}
       | _ => Raise TypeError
       end;
     is_shape_and_dtype_rgb_or_rgba := fun data_shape data_dtype =>
       String.eqb data_dtype "uint8"
       && match last data_shape with
          | Some (PInt 3) | Some (PInt 4) => (length data_shape =? 3)%nat
          | _ => false
          end;
     numeric_process_data_in_place := fun _ _ => Raise NotImplementedError;
     numeric_processed_calibrations := fun _ _ _ _ => Raise NotImplementedError;
     numeric_processed_data_shape_and_dtype :=
       fun _ _ _ => Raise NotImplementedError |}.

Section Operations.

Variable lib : Numerics.

(** [Resample2dOperation.process_data_copy], lines 365-370. *)
Definition Resample2d_process_data_copy (self : Operation)
    (data_copy : ndarray) : result ndarray :=
  shape0 ← index (shape_tuple data_copy) 0;
  let height := get_property self "height" shape0 in
  shape1 ← index (shape_tuple data_copy) 1;
  let width := get_property self "width" shape1 in
  if Py.eq shape1 width && Py.eq shape0 height then Ok data_copy
  else Image_scaled lib data_copy (height, width).

(** [process_data_copy]: the base class raises (lines 231-232), only
    [Resample2dOperation] overrides it. *)
Definition process_data_copy (self : Operation) (data_copy : ndarray)
    : result ndarray :=
  match op_class self with
  | Resample2dOperation => Resample2d_process_data_copy self data_copy
  | _ => Raise NotImplementedError
  end.

(** [process_data_in_place]: the base class copies and calls
    [process_data_copy] (lines 236-237); every class but
    [Resample2dOperation] overrides it. *)
Definition process_data_in_place (self : Operation) (data : ndarray)
    : result ndarray :=
  match op_class self with
  | Resample2dOperation => process_data_copy self (ndarray_copy data)
  | _ => numeric_process_data_in_place lib self data
  end.

(** Division of a float by an int or a float, as in line 378. *)
Definition div_by (x : Q) (d : pyval) : result Q :=
  match Py.as_number d with
  | Some q => Py.truediv x q
  | None => Raise TypeError
  end.

(** [Resample2dOperation.get_processed_calibrations], lines 372-379. *)
Definition Resample2d_get_processed_calibrations (self : Operation)
    (data_shape : list pyval) (data_dtype : string)
    (source_calibrations : list Calibration) : result (list Calibration) :=
  if negb (length source_calibrations =? 2)%nat then Raise AssertionError
  else
    shape0 ← index data_shape 0;
    let height := get_property self "height" shape0 in
    shape1 ← index data_shape 1;
    let width := get_property self "width" shape1 in
    match source_calibrations, Py.as_number shape0, Py.as_number shape1 with
    | [c0; c1], Some n0, Some n1 =>
        s0 ← div_by (scale c0 * n0) height;
        s1 ← div_by (scale c1 * n1) width;
        Ok [ {| origin := origin c0; scale := s0; units := units c0 |};
             {| origin := origin c1; scale := s1; units := units c1 |} ]
    | _, _, _ => Raise TypeError
    end.

(** [get_processed_calibrations]: pass-through in the base class, lines
    240-241. *)
Definition get_processed_calibrations (self : Operation)
    (data_shape : list pyval) (data_dtype : string)
    (source_calibrations : list Calibration) : result (list Calibration) :=
  match op_class self with
  | Resample2dOperation =>
      Resample2d_get_processed_calibrations self data_shape data_dtype
        source_calibrations
  | FFTOperation | IFFTOperation | LineProfileOperation =>
      numeric_processed_calibrations lib self data_shape data_dtype
        source_calibrations
  | _ => Ok source_calibrations
  end.

(** [get_processed_intensity_calibration], lines 242-243: no class
    overrides it. *)
Definition get_processed_intensity_calibration (self : Operation)
    (data_shape : list pyval) (data_dtype : string)
    (intensity_calibration : Calibration) : result Calibration :=
  Ok intensity_calibration.

(** [Resample2dOperation.get_processed_data_shape_and_dtype], lines
    381-387. *)
Definition Resample2d_get_processed_data_shape_and_dtype (self : Operation)
    (data_shape : list pyval) (data_dtype : string)
    : result (list pyval * string) :=
  shape0 ← index data_shape 0;
  let height := get_property self "height" shape0 in
  shape1 ← index data_shape 1;
  let width := get_property self "width" shape1 in
  if is_shape_and_dtype_rgb_or_rgba lib data_shape data_dtype then
    channels ← index_last data_shape;
    Ok ([height; width; channels], data_dtype)
  else Ok ([height; width], data_dtype).

(** [get_processed_data_shape_and_dtype]: pass-through in the base class,
    lines 246-247. *)
Definition get_processed_data_shape_and_dtype (self : Operation)
    (data_shape : list pyval) (data_dtype : string)
    : result (list pyval * string) :=
  match op_class self with
  | Resample2dOperation =>
      Resample2d_get_processed_data_shape_and_dtype self data_shape data_dtype
  | IFFTOperation | InvertOperation | GaussianBlurOperation =>
      Ok (data_shape, data_dtype)
  | _ => numeric_processed_data_shape_and_dtype lib self data_shape data_dtype
  end.

(** [property_defaults_for_data_shape_and_dtype]: empty in the base class
    (lines 251-252), height and width of the shape for
    [Resample2dOperation] (lines 389-394). *)
Definition property_defaults_for_data_shape_and_dtype (self : Operation)
    (data_shape : list pyval) (data_dtype : string)
    : result (list (string * pyval)) :=
  match op_class self with
  | Resample2dOperation =>
      shape0 ← index data_shape 0;
      shape1 ← index data_shape 1;
      Ok [("height", shape0); ("width", shape1)]
  | _ => Ok []
  end.

End Operations.

(** *** OperationManager *)

(** The registry, [OperationManager.__operations]: operation id to
    factory. *)
Definition registry : Type := gmap string (unit -> Operation).

(** [register_operation], lines 499-500. *)
Definition register_operation (operations : registry) (operation_id : string)
    (create_operation_fn : unit -> Operation) : registry :=
  <[operation_id := create_operation_fn]> operations.

(** [unregister_operation], lines 502-503. *)
Definition unregister_operation (operations : registry)
    (operation_id : string) : result registry :=
  match operations !! operation_id with
  | Some _ => Ok (delete operation_id operations)
  | None => Raise (KeyError operation_id)
  end.

(** [build_operation], lines 505-508. *)
Definition build_operation (operations : registry) (operation_id : string)
    : option Operation :=
  match operations !! operation_id with
  | Some create_operation_fn => Some (create_operation_fn tt)
  | None => None
  end.

(** The registrations at the end of the module, lines 511-519. *)
Definition builtin_operations : registry :=
  let r := (∅ : registry) in
  let r := register_operation r "fft-operation" (fun _ => new_FFTOperation) in
  let r := register_operation r "inverse-fft-operation" (fun _ => new_IFFTOperation) in
  let r := register_operation r "invert-operation" (fun _ => new_InvertOperation) in
  let r := register_operation r "gaussian-blur-operation" (fun _ => new_GaussianBlurOperation) in
  let r := register_operation r "crop-operation" (fun _ => new_Crop2dOperation) in
  let r := register_operation r "resample-operation" (fun _ => new_Resample2dOperation) in
  let r := register_operation r "histogram-operation" (fun _ => new_HistogramOperation) in
  let r := register_operation r "line-profile-operation" (fun _ => new_LineProfileOperation) in
  let r := register_operation r "convert-to-scalar-operation" (fun _ => new_ConvertToScalarOperation) in
  r.

(** *** OperationItem *)

Module OperationItem.

(** The fields [__init__] sets, lines 36-61.  [operation] is [None] when
    the id is not registered.  The bound graphic is left out: none of the
    methods below reads it. *)
Record t : Type := {
  operation : option Operation;
  name : string;
  enabled : bool;
  operation_id : string;
  description : list description_entry;
  properties : list string;
  values : gmap string pyval
}.

(** [__init__], lines 36-61. *)
Definition init (operations : registry) (operation_id : string) : t :=
  let operation := build_operation operations operation_id in
  let description :=
    match operation with
    | Some op => Operation.description op
    | None => []
    end in
  {| operation := operation;
     name := match operation with
             | Some op => Operation.name op
             | None => "Unavailable Operation"
             end;
     enabled := true;
     operation_id := operation_id;
     description := description;
     properties := map entry_property description;
     values := ∅ |}.

(** [get_property], lines 90-98. *)
Definition get_property (self : t) (property_id : string)
    (default_value : pyval) : pyval :=
  match values self !! property_id with
  | Some value => value
  | None =>
      match default_value with
      | PNone =>
          match find (fun e => String.eqb (entry_property e) property_id)
                     (description self) with
          | Some e => entry_default e
          | None => PNone
          end
      | _ => default_value
      end
  end.

(** [set_property], lines 101-105. *)
Definition set_property (self : t) (property_id : string) (value : pyval) : t :=
  {| operation := (fun op => setattr op property_id value) <$> operation self;
     name := name self; enabled := enabled self;
     operation_id := operation_id self; description := description self;
     properties := properties self;
     values := <[property_id := value]> (values self) |}.

(** One round of the loop of [__set_property_default], lines 109-115, on
    one description entry. *)
Definition set_default_at (property_id : string) (default_value : pyval)
    (self : t) (entry : description_entry) : t * description_entry :=
  if String.eqb (entry_property entry) property_id then
    let entry :=
      {| entry_name := entry_name entry; entry_property := entry_property entry;
         entry_type := entry_type entry; entry_default := default_value |} in
    let unset :=
      match values self !! property_id with
      | None => true
      | Some PNone => true
      | Some _ => false
      end in
    if unset then
      ({| operation :=
            (fun op => setattr op property_id default_value) <$> operation self;
          name := name self; enabled := enabled self;
          operation_id := operation_id self; description := description self;
          properties := properties self;
          values := <[property_id := default_value]> (values self) |}, entry)
    else (self, entry)
  else (self, entry).

(** [__set_property_default], lines 108-115.  The entries are the
    dictionaries of the operation's own description list, which the item
    shares: the new defaults show in both. *)
Definition set_property_default (self : t) (property_id : string)
    (default_value : pyval) : t :=
  let '(self, entries) :=
    foldl (fun '(self, done) (entry : description_entry) =>
             let '(self, entry) :=
               set_default_at property_id default_value self entry in
             (self, (done ++ [entry])%list))
          (self, ([] : list description_entry)) (description self) in
  {| operation :=
       (fun op => {| op_class := op_class op; Operation.name := Operation.name op;
                     Operation.operation_id := Operation.operation_id op;
                     Operation.description := entries;
                     attributes := attributes op |}) <$> operation self;
     name := name self; enabled := enabled self;
     operation_id := operation_id self; description := entries;
     properties := properties self; values := values self |}.

Section Processing.

Variable lib : Numerics.

(** [process_data], lines 118-122. *)
Definition process_data (self : t) (data : ndarray) : result ndarray :=
  match operation self with
  | Some op => process_data_in_place lib op data
  | None => Ok (ndarray_copy data)
  end.

(** [get_processed_calibrations], lines 126-130. *)
Definition get_processed_calibrations (self : t) (data_shape : list pyval)
    (data_dtype : string) (source_calibrations : list Calibration)
    : result (list Calibration) :=
  match operation self with
  | Some op =>
      Operation.get_processed_calibrations lib op data_shape data_dtype
        source_calibrations
  | None => Ok source_calibrations
  end.

(** [get_processed_intensity_calibration], lines 132-136.  The [else]
    branch returns [source_calibrations], which is neither a parameter nor
    a local of this method nor a name of the module or of the builtins:
    reading it raises NameError. *)
Definition get_processed_intensity_calibration (self : t)
    (data_shape : list pyval) (data_dtype : string)
    (intensity_calibration : Calibration) : result Calibration :=
  match operation self with
  | Some op =>
      Operation.get_processed_intensity_calibration op data_shape data_dtype
        intensity_calibration
  | None => Raise (NameError "source_calibrations")
  end.

(** [get_processed_data_shape_and_dtype], lines 139-142. *)
Definition get_processed_data_shape_and_dtype (self : t)
    (data_shape : list pyval) (data_dtype : string)
    : result (list pyval * string) :=
  match operation self with
  | Some op =>
      Operation.get_processed_data_shape_and_dtype lib op data_shape data_dtype
  | None => Ok (data_shape, data_dtype)
  end.

(** [update_data_shape_and_dtype], lines 145-149. *)
Definition update_data_shape_and_dtype (self : t) (data_shape : list pyval)
    (data_dtype : string) : result t :=
  match operation self with
  | Some op =>
      default_values ←
        property_defaults_for_data_shape_and_dtype op data_shape data_dtype;
      Ok (foldl (fun self '(property, default_value) =>
                   set_property_default self property default_value)
                self default_values)
  | None => Ok self
  end.

End Processing.

End OperationItem.

(** *** An OperationItem and its graphic *)

Module Binding.

(** The graphic an item can own, by its class. *)
Inductive owned_graphic : Type :=
| OfLine (g : Graphics.LineGraphic.t)
| OfRectangle (g : Graphics.RectangleGraphic.t)
| OfEllipse (g : Graphics.EllipseGraphic.t).

(** Points and pairs of points as the tuples of floats they are. *)
Definition of_point (p : Graphics.point) : pyval :=
  PTuple [PFloat p.1; PFloat p.2].

Definition of_points (a b : Graphics.point) : pyval :=
  PTuple [of_point a; of_point b].

(** An OperationItem with the field [graphic] of lines 57-58. *)
Record t : Type := {
  item : OperationItem.t;
  graphic : option owned_graphic
}.

(** [OperationItem(operation_id)] starts without a graphic. *)
Definition init (operations : registry) (operation_id : string) : t :=
  {| item := OperationItem.init operations operation_id; graphic := None |}.

(** The value [__sync_graphic] takes from the graphic for a description
    entry of type [entry_type], lines 200-209: start and end of a line for
    "line", the bounds of a rectangle for "rectangle".  An ellipse is not
    an instance of RectangleGraphic. *)
Definition synced_value (entry_type : string) (g : option owned_graphic)
    : option pyval :=
  match g with
  | Some (OfLine line) =>
      if String.eqb entry_type "line"
      then Some (of_points (Graphics.LineGraphic.start line)
                           (Graphics.LineGraphic.end_ line))
      else None
  | Some (OfRectangle r) =>
      if String.eqb entry_type "rectangle"
      then Some (of_points (Graphics.RectangleGraphic.bounds r).1
                           (Graphics.RectangleGraphic.bounds r).2)
      else None
  | _ => None
  end.

(** The assignment both branches of [__sync_graphic] make, lines 202-204
    and 207-209; no notification is sent. *)
Definition store_synced (self : OperationItem.t) (property_id : string)
    (value : pyval) : OperationItem.t :=
  {| OperationItem.operation :=
       (fun op => setattr op property_id value)
         <$> OperationItem.operation self;
     OperationItem.name := OperationItem.name self;
     OperationItem.enabled := OperationItem.enabled self;
     OperationItem.operation_id := OperationItem.operation_id self;
     OperationItem.description := OperationItem.description self;
     OperationItem.properties := OperationItem.properties self;
     OperationItem.values := <[property_id := value]> (OperationItem.values self) |}.

(** [__sync_graphic], lines 196-209. *)
Definition sync_graphic (self : t) : t :=
  {| item :=
       foldl (fun (it : OperationItem.t) (entry : description_entry) =>
                match synced_value (entry_type entry) (graphic self) with
                | Some value => store_synced it (entry_property entry) value
                | None => it
                end)
             (item self) (OperationItem.description (item self));
     graphic := graphic self |}.

(** [set_graphic(key, graphic)], lines 182-194, without the reference
    counts and observer lists of the storage base class. *)
Definition set_graphic (self : t) (key : string) (g : option owned_graphic) : t :=
  if String.eqb key "graphic" then
    let self := {| item := item self; graphic := None |} in
    match g with
    | Some g => sync_graphic {| item := item self; graphic := Some g |}
    | None => self
    end
  else self.

(** [get_graphic(key)], lines 174-180; for another key the storage base
    class is asked. *)
Definition get_graphic (self : t) (key : string) : option (option owned_graphic) :=
  if String.eqb key "graphic" then Some (graphic self) else None.

(** [deepcopy_from(operation, memo)], lines 158-168: the values are copied
    key by key into the values of [self]. *)
Definition deepcopy_from (self operation : t) : t :=
  let values := OperationItem.values (item operation) in
  let it := item self in
  let it :=
    {| OperationItem.operation := OperationItem.operation it;
       OperationItem.name := OperationItem.name it;
       OperationItem.enabled := OperationItem.enabled it;
       OperationItem.operation_id := OperationItem.operation_id it;
       OperationItem.description := OperationItem.description it;
       OperationItem.properties := OperationItem.properties it;
       OperationItem.values := values ∪ OperationItem.values it |} in
  let self := set_graphic {| item := it; graphic := graphic self |}
                "graphic" (graphic operation) in
  {| item :=
       {| OperationItem.operation := OperationItem.operation (item self);
          OperationItem.name := OperationItem.name (item self);
          OperationItem.enabled := OperationItem.enabled (item operation);
          OperationItem.operation_id := OperationItem.operation_id (item self);
          OperationItem.description := OperationItem.description (item self);
          OperationItem.properties := OperationItem.properties (item self);
          OperationItem.values := OperationItem.values (item self) |};
     graphic := graphic self |}.

(** [__deepcopy__], lines 152-156: a new item for the same id, then
    [deepcopy_from]. *)
Definition deepcopy (operations : registry) (self : t) : t :=
  deepcopy_from (init operations (OperationItem.operation_id (item self))) self.

(** [set_property] and [enabled] of the item inside. *)
Definition set_property (self : t) (property_id : string) (value : pyval) : t :=
  {| item := OperationItem.set_property (item self) property_id value;
     graphic := graphic self |}.

End Binding.

(** What an update of the defaults keeps of an item: the values that are
    set, and the fields that name it. *)
Definition kept (self self' : OperationItem.t) : Prop :=
  (forall k v, OperationItem.values self !! k = Some v -> v <> PNone ->
               OperationItem.values self' !! k = Some v)
  /\ OperationItem.name self' = OperationItem.name self
  /\ OperationItem.operation_id self' = OperationItem.operation_id self
  /\ OperationItem.enabled self' = OperationItem.enabled self
  /\ OperationItem.properties self' = OperationItem.properties self.

(** What a graphic has to give to the parameters, by its class. *)
Definition graphic_value (g : Binding.owned_graphic) : option pyval :=
  match g with
  | Binding.OfLine line =>
      Some (Binding.of_points (Graphics.LineGraphic.start line)
                              (Graphics.LineGraphic.end_ line))
  | Binding.OfRectangle r =>
      Some (Binding.of_points (Graphics.RectangleGraphic.bounds r).1
                              (Graphics.RectangleGraphic.bounds r).2)
  | Binding.OfEllipse _ => None
  end.

(** Whether a description entry is for the property [k] and of the type
    that the graphic [g] feeds. *)
Definition fed_by (g : Binding.owned_graphic) (k : string)
    (entry : description_entry) : bool :=
  match Binding.synced_value (entry_type entry) (Some g) with
  | Some _ => String.eqb (entry_property entry) k
  | None => false
  end.

(** [getattr(operation, k)] on the operation of an item, when there is
    one and it has the attribute. *)
Definition attribute_of (operation : option Operation) (k : string)
    : option pyval :=
  match operation with
  | Some op => attributes op !! k
  | None => None
  end.

(** A Gaussian blur item whose radius was set to 0.7. *)
Definition blur_item : Binding.t :=
  Binding.set_property (Binding.init builtin_operations "gaussian-blur-operation")
    "sigma" (PFloat 0.7).

(** The ids registered at the end of the module. *)
Definition builtin_ids : list string :=
  ["fft-operation"; "inverse-fft-operation"; "invert-operation";
   "gaussian-blur-operation"; "crop-operation"; "resample-operation";
   "histogram-operation"; "line-profile-operation";
   "convert-to-scalar-operation"].


(** A sample array. *)
Definition two_by_three : ndarray :=
  {| shape := [2; 3]%Z; dtype := "float64";
     elements := [1; 2; 3; 4; 5; 6]%Q |}.

End Operation.

(** ** nion/swift/model/Symbolic.py *)

Module Symbolic.

(** A [uuid.UUID], by its canonical text: [str(u)] is [u] itself. *)
Definition uuid : Type := string.

(** What is fired or notified, in order. *)
Inductive event : Type :=
| NotifySetProperty (key : string)
| ChangedEvent
| VariableTypeChangedEvent
| NeedsUpdateEvent
| ComputationMutatedEvent.

(** [d.get(key)] on a dictionary of values. *)
Definition dict_get (d : gmap string pyval) (key : string) : pyval :=
  default PNone (d !! key).

(** [del d[key]]. *)
Definition dict_del (d : gmap string pyval) (key : string)
    : result (gmap string pyval) :=
  match d !! key with
  | Some _ => Ok (delete key d)
  | None => Raise (KeyError key)
  end.

(** [v in strings] for a tuple of string literals. *)
Definition in_strings (v : pyval) (strings : list string) : bool :=
  match v with
  | PStr s => existsb (String.eqb s) strings
  | _ => false
  end.

(** *** ComputationVariable *)

Module ComputationVariable.

Record t : Type := {
  uuid : Symbolic.uuid;
  name : option string;
  label : option string;
  value_type : option string;
  value : pyval;
  value_default : pyval;
  value_min : pyval;
  value_max : pyval;
  specifier : option (gmap string pyval);
  control_type : option string;
  cascade_delete : pyval;
  events : list event
}.

(** [__init__], lines 46-60; the uuid is the one the persistent object
    base class assigns. *)
Definition init (uuid : Symbolic.uuid) (name : option string)
    (value_type : option string) (value value_default value_min value_max : pyval)
    (control_type : option string) (specifier : option (gmap string pyval))
    (label : option string) : t :=
  {| uuid := uuid; name := name;
     label := match label with
              | Some l => if String.eqb l "" then name else label
              | None => name
              end;
     value_type := value_type; value := value;
     value_default := value_default; value_min := value_min;
     value_max := value_max; specifier := specifier;
     control_type := control_type; cascade_delete := PNone; events := [] |}.

(** [__value_reader], lines 74-88. *)
Definition value_reader (text : Py.Text) (self : t) (key : string)
    (properties : gmap string pyval) : result pyval :=
  let value_type := value_type self in
  let raw_value := dict_get properties key in
  match raw_value with
  | PNone => Ok PNone
  | _ =>
      match value_type with
      | Some "boolean" => Ok (PBool (Py.truthy raw_value))
      | Some "integral" => z ← Py.to_int text raw_value; Ok (PInt z)
      | Some "real" => q ← Py.to_float text raw_value; Ok (PFloat q)
      | Some "complex" =>
          c ← Py.to_complex_star text raw_value; Ok (PComplex c.1 c.2)
      | Some "string" => Ok (PStr (Py.to_str text raw_value))
      | _ => Ok PNone
      end
  end.

(** [__value_writer], lines 90-102: five independent [if]s, of which at
    most one applies. *)
Definition value_writer (text : Py.Text) (self : t) (key : string)
    (properties : gmap string pyval) (value : pyval)
    : result (gmap string pyval) :=
  let value_type := value_type self in
  match value with
  | PNone => Ok properties
  | _ =>
      match value_type with
      | Some "boolean" => Ok (<[key := PBool (Py.truthy value)]> properties)
      | Some "integral" =>
          z ← Py.to_int text value; Ok (<[key := PInt z]> properties)
      | Some "real" =>
          q ← Py.to_float text value; Ok (<[key := PFloat q]> properties)
      | Some "complex" =>
          c ← Py.to_complex text value;
          Ok (<[key := PTuple [PFloat c.1; PFloat c.2]]> properties)
      | Some "string" =>
          Ok (<[key := PStr (Py.to_str text value)]> properties)
      | _ => Ok properties
      end
  end.

Definition of_name (name : option string) : pyval :=
  match name with
  | Some s => PStr s
  | None => PNone
  end.

(** [variable_specifier], lines 104-113. *)
Definition variable_specifier (self : t) : option (gmap string pyval) :=
  match value_type self with
  | Some _ =>
      Some (<["type" := PStr "variable"]>
           (<["version" := PInt 1]>
           (<["uuid" := PStr (uuid self)]>
           (<["x-name" := of_name (name self)]>
           (<["x-value" := value self]> ∅)))))
  | None => specifier self
  end.

(** [__property_changed(name, value)], lines 139-145, as events.  The test
    [name in ("specifier")] is a test on a string, not on a tuple. *)
Definition property_changed (key : string) : list event :=
  [NotifySetProperty key]
  ++ (if existsb (String.eqb key) ["name"; "label"]
      then [NotifySetProperty "display_label"] else [])
  ++ (if Py.contains "specifier" key
      then [NotifySetProperty "specifier_uuid_str"] else [])
  ++ [ChangedEvent].

(** Assignments to the persistent properties: the field is written, then
    the change callback runs. *)
Definition set_value_type (self : t) (v : option string) : t :=
  {| uuid := uuid self; name := name self; label := label self;
     value_type := v; value := value self;
     value_default := value_default self; value_min := value_min self;
     value_max := value_max self; specifier := specifier self;
     control_type := control_type self; cascade_delete := cascade_delete self;
     events := events self ++ property_changed "value_type" |}.

Definition set_control_type (self : t) (v : option string) : t :=
  {| uuid := uuid self; name := name self; label := label self;
     value_type := value_type self; value := value self;
     value_default := value_default self; value_min := value_min self;
     value_max := value_max self; specifier := specifier self;
     control_type := v; cascade_delete := cascade_delete self;
     events := events self ++ property_changed "control_type" |}.

Definition set_value_default (self : t) (v : pyval) : t :=
  {| uuid := uuid self; name := name self; label := label self;
     value_type := value_type self; value := value self;
     value_default := v; value_min := value_min self;
     value_max := value_max self; specifier := specifier self;
     control_type := control_type self; cascade_delete := cascade_delete self;
     events := events self ++ property_changed "value_default" |}.

Definition set_value_min (self : t) (v : pyval) : t :=
  {| uuid := uuid self; name := name self; label := label self;
     value_type := value_type self; value := value self;
     value_default := value_default self; value_min := v;
     value_max := value_max self; specifier := specifier self;
     control_type := control_type self; cascade_delete := cascade_delete self;
     events := events self ++ property_changed "value_min" |}.

Definition set_value_max (self : t) (v : pyval) : t :=
  {| uuid := uuid self; name := name self; label := label self;
     value_type := value_type self; value := value self;
     value_default := value_default self; value_min := value_min self;
     value_max := v; specifier := specifier self;
     control_type := control_type self; cascade_delete := cascade_delete self;
     events := events self ++ property_changed "value_max" |}.

Definition set_specifier (self : t) (v : option (gmap string pyval)) : t :=
  {| uuid := uuid self; name := name self; label := label self;
     value_type := value_type self; value := value self;
     value_default := value_default self; value_min := value_min self;
     value_max := value_max self; specifier := v;
     control_type := control_type self; cascade_delete := cascade_delete self;
     events := events self ++ property_changed "specifier" |}.

(** A change made in place to the dictionary that [self.specifier]
    refers to: no assignment, no callback. *)
Definition mutate_specifier (self : t) (v : gmap string pyval) : t :=
  {| uuid := uuid self; name := name self; label := label self;
     value_type := value_type self; value := value self;
     value_default := value_default self; value_min := value_min self;
     value_max := value_max self; specifier := Some v;
     control_type := control_type self; cascade_delete := cascade_delete self;
     events := events self |}.

Definition fire (self : t) (e : event) : t :=
  {| uuid := uuid self; name := name self; label := label self;
     value_type := value_type self; value := value self;
     value_default := value_default self; value_min := value_min self;
     value_max := value_max self; specifier := specifier self;
     control_type := control_type self; cascade_delete := cascade_delete self;
     events := events self ++ [e] |}.

(** [control_type_default], lines 147-149. *)
Definition control_type_default (value_type : string) : option string :=
  ({[ "boolean" := "checkbox"; "integral" := "slider"; "real" := "field";
      "complex" := "field"; "string" := "field" ]} : gmap string string)
    !! value_type.

(** The getter of [variable_type], lines 151-159. *)
Definition variable_type (self : t) : pyval :=
  match value_type self with
  | Some vt => PStr vt
  | None =>
      match specifier self with
      | Some spec =>
          let specifier_type := dict_get spec "type" in
          let specifier_property := dict_get spec "property" in
          if Py.truthy specifier_property then specifier_property
          else specifier_type
      | None => PNone
      end
  end.

Definition data_types : list string := ["data_item"; "data"; "display_data"].

(** How a method that mutates [self] ends: it returns, or it raises and
    leaves [self] as it is at that point. *)
Inductive outcome : Type :=
| Returned (self : t)
| Raised (e : exn) (self : t).

(** [self.specifier or {"version": 1}]: the dictionary of the variable
    itself when there is a non-empty one, a new one otherwise. *)
Definition specifier_or_new (self : t) : gmap string pyval * bool :=
  match specifier self with
  | Some spec =>
      if decide (spec = ∅) then ({[ "version" := PInt 1 ]}, false)
      else (spec, true)
  | None => ({[ "version" := PInt 1 ]}, false)
  end.

(** The state of [self] once the local dictionary has been changed in
    place: the change shows in [self.specifier] when the two are the
    same object. *)
Definition after_mutation (self : t) (shared : bool)
    (spec : gmap string pyval) : t :=
  if shared then mutate_specifier self spec else self.

Definition clear_scalar_fields (self : t) : t :=
  let self := set_value_type self None in
  let self := set_control_type self None in
  let self := set_value_default self PNone in
  let self := set_value_min self PNone in
  set_value_max self PNone.

(** The branch for [data_item], [data] and [display_data], lines 183-196. *)
Definition set_data_type (self : t) (value_type : string) : outcome :=
  let self := clear_scalar_fields self in
  let '(spec, shared) := specifier_or_new self in
  let dropped :=
    if negb (in_strings (dict_get spec "type") data_types)
    then dict_del spec "uuid" else Ok spec in
  match dropped with
  | Raise e => Raised e self
  | Ok spec =>
      let spec := <["type" := PStr "data_item"]> spec in
      let written :=
        if existsb (String.eqb value_type) ["data"; "display_data"]
        then Ok (<["property" := PStr value_type]> spec)
        else dict_del spec "property" in
      match written with
      | Raise e => Raised e (after_mutation self shared spec)
      | Ok spec => Returned (set_specifier self (Some spec))
      end
  end.

(** The branch for [region], lines 198-207. *)
Definition set_region_type (self : t) (value_type : string) : outcome :=
  let self := clear_scalar_fields self in
  let '(spec, shared) := specifier_or_new self in
  let spec := <["type" := PStr value_type]> spec in
  match dict_del spec "uuid" with
  | Raise e => Raised e (after_mutation self shared spec)
  | Ok spec =>
      match dict_del spec "property" with
      | Raise e => Raised e (after_mutation self shared spec)
      | Ok spec => Returned (set_specifier self (Some spec))
      end
  end.

(** The branch for the scalar types, lines 167-181. *)
Definition set_scalar_type (self : t) (value_type : string) : t :=
  let self := set_specifier self None in
  let self := set_value_type self (Some value_type) in
  let self := set_control_type self (control_type_default value_type) in
  let self :=
    if String.eqb value_type "boolean" then set_value_default self (PBool true)
    else if String.eqb value_type "integral" then set_value_default self (PInt 0)
    else if String.eqb value_type "real" then set_value_default self (PFloat 0)
    else if String.eqb value_type "complex" then
      set_value_default self (PComplex 0 0)
    else set_value_default self PNone in
  let self := set_value_min self PNone in
  set_value_max self PNone.

(** The setter of [variable_type], lines 163-208.  The last test,
    [value_type in ("region")], is a test on a string. *)
Definition set_variable_type (self : t) (value_type : string) : outcome :=
  if Py.eq (PStr value_type) (variable_type self) then Returned self
  else
    let branch :=
      if existsb (String.eqb value_type)
           ["boolean"; "integral"; "real"; "complex"; "string"]
      then Returned (set_scalar_type self value_type)
      else if existsb (String.eqb value_type) data_types
      then set_data_type self value_type
      else if Py.contains "region" value_type
      then set_region_type self value_type
      else Returned self in
    match branch with
    | Returned self => Returned (fire self VariableTypeChangedEvent)
    | Raised e self => Raised e self
    end.

(** [has_range], lines 230-232. *)
Definition has_range (self : t) : bool :=
  match value_type self, value_min self, value_max self with
  | None, _, _ | _, PNone, _ | _, _, PNone => false
  | _, _, _ => true
  end.

End ComputationVariable.

(** *** The collaborators of a Computation *)

(** What executing the assembled program leads to: it runs to its end and
    leaves its local bindings, or it fails with an exception.  The handler
    on line 422 catches the instances of [Exception]; any other exception,
    [SystemExit] of a program that calls [sys.exit] for one, passes it. *)
Inductive exec_outcome : Type :=
| Completed (locals : gmap string pyval)
| Failed (e : exn).

(** The names of the globals of a program: strings, and [None] for a
    variable that was given no name. *)
Abbreviation globals := (gmap (option string) pyval).

(** The host context handed to [bind]: its [resolve_object_specifier]
    gives the value of the object found, or none. *)
Abbreviation host_context := (gmap string pyval -> result (option pyval)).

(** What [Symbolic.py] takes from the interpreter and from [nion]. *)
Record Runtime : Type := {
  text : Py.Text;
  (** [Converter.UuidToStringConverter().convert_back] *)
  convert_back : pyval -> result (option uuid);
  (** [Context.context().g] *)
  context_g : globals;
  (** [exec(code, g, l)] with [l] empty *)
  exec : string -> globals -> exec_outcome
}.

(** What resolving an object specifier gives: an object of the host with
    its value, or the handle of a variable. *)
Inductive bound_item : Type :=
| HostItem (value : pyval)
| BoundVariable (variable : ComputationVariable.t).

(** [item.value]. *)
Definition item_value (item : bound_item) : pyval :=
  match item with
  | HostItem value => value
  | BoundVariable variable => ComputationVariable.value variable
  end.

(** *** Computation *)

Module Computation.

(** The persistent properties and the private fields, lines 293-316. *)
Record t : Type := {
  original_expression : option string;
  error_text : option string;
  evaluate_error : option string;
  label : option string;
  variables : list ComputationVariable.t;
  evaluating : bool;
  data_and_metadata : pyval;
  needs_update : bool;
  evaluation_count_for_test : nat;
  needs_parse : bool;
  computation_context : option host_context;
  events : list event
}.

(** [__init__], lines 293-316.  [__computation_context] is not set here:
    [bind] sets it. *)
Definition init (expression : option string) : t :=
  {| original_expression := expression; error_text := None;
     evaluate_error := None; label := None; variables := [];
     evaluating := false; data_and_metadata := PNone;
     needs_update := match expression with Some _ => true | None => false end;
     evaluation_count_for_test := 0; needs_parse := true;
     computation_context := None; events := [] |}.

(** [bind], lines 510-524, without the listeners of [__bind_variable]. *)
Definition bind (self : t) (context : host_context) : t :=
  {| original_expression := original_expression self;
     error_text := error_text self; evaluate_error := evaluate_error self;
     label := label self; variables := variables self;
     evaluating := evaluating self;
     data_and_metadata := data_and_metadata self;
     needs_update := needs_update self;
     evaluation_count_for_test := evaluation_count_for_test self;
     needs_parse := needs_parse self;
     computation_context := Some context; events := events self |}.

(** [resolve_variable], lines 356-363. *)
Definition resolve_variable (rt : Runtime) (self : t)
    (object_specifier : gmap string pyval)
    : result (option ComputationVariable.t) :=
  let uuid_str := dict_get object_specifier "uuid" in
  uuid_ ← (if Py.truthy uuid_str then convert_back rt uuid_str else Ok None);
  match uuid_ with
  | Some uuid_ =>
      Ok (find (fun variable =>
                  String.eqb (ComputationVariable.uuid variable) uuid_)
               (variables self))
  | None => Ok None
  end.

(** [begin_evaluate], lines 432-437: under the lock, read the flag, set
    it, return the negation of what was read. *)
Definition set_evaluating (self : t) (b : bool) : t :=
  {| original_expression := original_expression self;
     error_text := error_text self; evaluate_error := evaluate_error self;
     label := label self; variables := variables self;
     evaluating := b;
     data_and_metadata := data_and_metadata self;
     needs_update := needs_update self;
     evaluation_count_for_test := evaluation_count_for_test self;
     needs_parse := needs_parse self;
     computation_context := computation_context self;
     events := events self |}.

Definition begin_evaluate (self : t) : bool * t :=
  let evaluating := evaluating self in
  let self := set_evaluating self true in
  (negb evaluating, self).

(** [end_evaluate], lines 439-441. *)
Definition end_evaluate (self : t) : t := set_evaluating self false.

End Computation.

(** *** ComputationContext *)

Module ComputationContext.

(** [resolve_object_specifier], lines 261-273, for the context of
    [computation] over the host [context].  A ComputationVariable is an
    object without a length or a truth value of its own, so
    [not variable] holds only for [None]. *)
Definition resolve_object_specifier (rt : Runtime)
    (computation : Computation.t) (context : host_context)
    (object_specifier : gmap string pyval) : result (option bound_item) :=
  variable ← Computation.resolve_variable rt computation object_specifier;
  match variable with
  | None =>
      found ← context object_specifier;
      Ok (HostItem <$> (found : option pyval))
  | Some variable =>
      match ComputationVariable.specifier variable with
      | None => Ok (Some (BoundVariable variable))
      | Some _ => Ok None
      end
  end.

End ComputationContext.

(** *** Computation: parsing and evaluation *)

Module Evaluation.

Import Computation.

(** The first loop of [__parse_expression], lines 396-400: variable name
    to specifier, a later variable replacing an earlier one of the same
    name. *)
Definition computation_variable_map (self : t)
    : gmap (option string) (gmap string pyval) :=
  foldl (fun m variable =>
           match ComputationVariable.variable_specifier variable with
           | Some variable_specifier =>
               if decide (variable_specifier = ∅) then m
               else <[ComputationVariable.name variable := variable_specifier]> m
           | None => m
           end)
        ∅ (variables self).

(** The two helpers put into the globals, lines 409-410, are closures
    over the computation context; they appear as objects. *)
Definition data_by_uuid_partial : pyval := PObject 1.
Definition region_by_uuid_partial : pyval := PObject 2.

(** The second loop, lines 412-415. *)
Definition bind_globals (rt : Runtime) (self : t) (context : host_context)
    (g : globals) : result globals :=
  foldl (fun (acc : result globals) '(variable_name, object_specifier) =>
           g ← acc;
           resolved_object ←
             ComputationContext.resolve_object_specifier rt self context
               object_specifier;
           match resolved_object with
           | Some item => Ok (<[variable_name := item_value item]> g)
           | None => Ok g
           end)
        (Ok g) (map_to_list (computation_variable_map self)).

(** The program, lines 401-418: [import uuid], the lines of the
    expression but the last, and the last line assigned to [result]. *)
Definition assemble_code (expression : string) : string :=
  let expression_lines := Py.split Py.LF expression in
  let code_lines := ["import uuid"] in
  let expression_lines :=
    (removelast expression_lines
     ++ ["result = " +:+ List.last expression_lines ""])%list in
  String.concat Py.newline (code_lines ++ expression_lines)%list.

(** Lines 396-418: everything that happens before the program runs. *)
Definition assemble (rt : Runtime) (self : t) (expression : string)
    : result (string * globals) :=
  match computation_context self with
  | None => Raise (AttributeError "_Computation__computation_context")
  | Some context =>
      let g := context_g rt in
      let g := <[Some "data_by_uuid" := data_by_uuid_partial]> g in
      let g := <[Some "region_by_uuid" := region_by_uuid_partial]> g in
      g ← bind_globals rt self context g;
      Ok (assemble_code expression, g)
  end.

(** Lines 419-430: run the program, keep [result] or the fixed message,
    and assign [error_text], whose change callback notifies and fires
    [computation_mutated_event]. *)
Definition store_result (self : t) (data_and_metadata : pyval)
    (error_text : option string) : t :=
  {| original_expression := original_expression self;
     error_text := error_text; evaluate_error := evaluate_error self;
     label := label self; variables := variables self;
     evaluating := evaluating self;
     data_and_metadata := data_and_metadata;
     needs_update := needs_update self;
     evaluation_count_for_test := evaluation_count_for_test self;
     needs_parse := false;
     computation_context := computation_context self;
     events := events self
               ++ [NotifySetProperty "error_text"; ComputationMutatedEvent] |}.

Definition run (rt : Runtime) (code : string) (g : globals)
    : result (pyval * option string) :=
  match exec rt code g with
  | Completed l =>
      match l !! "result" with
      | Some result => Ok (result, None)
      | None => Ok (PNone, Some "Execution Error")
      end
  | Failed e =>
      if is_exception e then Ok (PNone, Some "Execution Error")
      else Raise e
  end.

(** [__parse_expression], lines 394-430. *)
Definition parse_expression (rt : Runtime) (self : t)
    (expression : option string) : result t :=
  match expression with
  | None | Some "" => Ok self
  | Some expression =>
      '(code, g) ← assemble rt self expression;
      '(data_and_metadata, error_text) ← run rt code g;
      Ok (store_result self data_and_metadata error_text)
  end.

(** [evaluate], lines 443-449. *)
Definition evaluate (rt : Runtime) (self : t) : result (pyval * t) :=
  let self :=
    {| original_expression := original_expression self;
       error_text := error_text self; evaluate_error := evaluate_error self;
       label := label self; variables := variables self;
       evaluating := evaluating self;
       data_and_metadata := data_and_metadata self;
       needs_update := false;
       evaluation_count_for_test := evaluation_count_for_test self + 1;
       needs_parse := needs_parse self;
       computation_context := computation_context self;
       events := events self |} in
  self ← (if needs_parse self
          then parse_expression rt self (original_expression self)
          else Ok self);
  Ok (data_and_metadata self, self).

(** The calls of the evaluation latch, and a run of calls with the
    answers of the [begin_evaluate] calls. *)
Inductive call : Type :=
| BeginEvaluate
| EndEvaluate.

Fixpoint run_calls (calls : list call) (self : t) : list bool * t :=
  match calls with
  | [] => ([], self)
  | BeginEvaluate :: calls =>
      let '(ok, self) := begin_evaluate self in
      let '(answers, self) := run_calls calls self in
      (ok :: answers, self)
  | EndEvaluate :: calls => run_calls calls (end_evaluate self)
  end.

(** The setter of [expression], lines 369-376. *)
Definition set_expression (rt : Runtime) (self : t) (value : option string)
    : result t :=
  if decide (value = original_expression self) then Ok self
  else
    self ← parse_expression rt self value;
    Ok {| original_expression := value;
          error_text := error_text self; evaluate_error := evaluate_error self;
          label := label self; variables := variables self;
          evaluating := evaluating self;
          data_and_metadata := data_and_metadata self;
          needs_update := true;
          evaluation_count_for_test := evaluation_count_for_test self;
          needs_parse := needs_parse self;
          computation_context := computation_context self;
          events := events self ++ [NeedsUpdateEvent; ComputationMutatedEvent] |}.

End Evaluation.

(** An instance for running examples: uuids are taken as written, the
    globals start empty, a program that calls [sys.exit] raises
    [SystemExit], and a program that reads an unbound name fails, here
    every program whose text mentions [undefined]. *)
Definition plain_runtime : Runtime :=
  {| text := Py.plain_text;
     convert_back := fun v =>
       match v with
       | PStr s => Ok (Some s)
       | _ => Raise TypeError
       end;
     context_g := ∅;
     exec := fun code g =>
       if Py.contains code "sys.exit(" then Failed SystemExit
       else if Py.contains code "undefined" then Failed (NameError "undefined")
       else Completed {[ "result" := PInt 0 ]} |}.

(** *** Notions and sample objects used to state the properties *)

(** The values of each scalar value type. *)
Inductive has_value_type : string -> pyval -> Prop :=
| boolean_value (b : bool) : has_value_type "boolean" (PBool b)
| integral_value (z : Z) : has_value_type "integral" (PInt z)
| real_value (q : Q) : has_value_type "real" (PFloat q)
| complex_value (re im : Q) : has_value_type "complex" (PComplex re im)
| string_value (s : string) : has_value_type "string" (PStr s).

Definition scalar_types : list string :=
  ["boolean"; "integral"; "real"; "complex"; "string"].

Definition real_variable : ComputationVariable.t :=
  ComputationVariable.init "1b7e" (Some "x") (Some "real") (PFloat 1.5)
    (PFloat 0) (PFloat 0) (PFloat 10) (Some "field") None None.

Definition complex_variable : ComputationVariable.t :=
  ComputationVariable.init "6f0a" (Some "z") (Some "complex") (PComplex 3 4)
    PNone PNone PNone None None None.

Definition data_reference : gmap string pyval :=
  <["version" := PInt 1]> (<["type" := PStr "data_item"]>
  (<["uuid" := PStr "93c2"]> ∅)).

Definition reference_variable : ComputationVariable.t :=
  ComputationVariable.init "5d01" (Some "src") None PNone PNone PNone PNone
    None (Some data_reference) None.

Definition with_variables (self : Computation.t)
    (variables : list ComputationVariable.t) : Computation.t :=
  {| Computation.original_expression := Computation.original_expression self;
     Computation.error_text := Computation.error_text self;
     Computation.evaluate_error := Computation.evaluate_error self;
     Computation.label := Computation.label self;
     Computation.variables := variables;
     Computation.evaluating := Computation.evaluating self;
     Computation.data_and_metadata := Computation.data_and_metadata self;
     Computation.needs_update := Computation.needs_update self;
     Computation.evaluation_count_for_test :=
       Computation.evaluation_count_for_test self;
     Computation.needs_parse := Computation.needs_parse self;
     Computation.computation_context := Computation.computation_context self;
     Computation.events := Computation.events self |}.

(** A host context that resolves every specifier to the object 7. *)
Definition eager_host : host_context := fun _ => Ok (Some (PObject 7)).

(** A host context that knows no object. *)
Definition empty_host : host_context := fun _ => Ok None.

Definition failing_computation : Computation.t :=
  Computation.bind (Computation.init (Some "undefined_name + 1")) empty_host.

(** A computation whose program leaves the interpreter. *)
Definition exit_expression : string :=
  "import sys" +:+ Py.newline +:+ "sys.exit(1)".

Definition exiting_computation : Computation.t :=
  Computation.bind (Computation.init (Some exit_expression)) empty_host.

(** A string without a line feed. *)
Fixpoint one_line (s : string) : bool :=
  match s with
  | EmptyString => true
  | String c rest => negb (Ascii.eqb c Py.LF) && one_line rest
  end.

(** What the writer stores for each scalar value type. *)
Inductive stored_as : string -> pyval -> Prop :=
| boolean_stored (b : bool) : stored_as "boolean" (PBool b)
| integral_stored (z : Z) : stored_as "integral" (PInt z)
| real_stored (q : Q) : stored_as "real" (PFloat q)
| complex_stored (re im : Q) :
    stored_as "complex" (PTuple [PFloat re; PFloat im])
| string_stored (s : string) : stored_as "string" (PStr s).

(** The specifier of a reference to a region. *)
Definition region_reference : gmap string pyval :=
  <["version" := PInt 1]> (<["type" := PStr "region"]>
  (<["uuid" := PStr "77aa"]> ∅)).

(** A computation over the given variables, bound to a host. *)
Definition bound_computation (expression : option string)
    (variables : list ComputationVariable.t) (context : host_context)
    : Computation.t :=
  Computation.bind (with_variables (Computation.init expression) variables)
    context.

End Symbolic.

(** * Properties *)

(** ** Graphics *)

Section GraphicsFacts.

Import Graphics.
Local Open Scope Q_scope.

Lemma lt_true (x y : Q) : Py.lt x y = true <-> x < y.
Proof.
  unfold Py.lt. rewrite negb_true_iff. split.
  - intros H. apply Qnot_le_lt. intros Hle.
    apply Qle_bool_iff in Hle. congruence.
  - intros H. destruct (Qle_bool y x) eqn:E; [|reflexivity].
    apply Qle_bool_iff in E. lra.
Qed.

Lemma lt_false (x y : Q) : Py.lt x y = false <-> y <= x.
Proof.
  unfold Py.lt. rewrite negb_false_iff. apply Qle_bool_iff.
Qed.

Lemma truediv_nonzero (x y : Q) : ~ y == 0 -> Py.truediv x y = Ok (x / y).
Proof.
  intros H. unfold Py.truediv.
  destruct (Qeq_bool y 0) eqn:E; [|reflexivity].
  apply Qeq_bool_iff in E. contradiction.
Qed.

Lemma truediv_zero (x y : Q) : y == 0 -> Py.truediv x y = Raise ZeroDivisionError.
Proof.
  intros H. unfold Py.truediv.
  apply Qeq_bool_iff in H. now rewrite H.
Qed.

(** C1, as amended.  Writing [size = (size[0], size[1])] and
    [origin = (origin[0], origin[1])] for the two tuples of [rect]: for every
    positive [aspect_ratio], [fit_to_aspect_ratio] returns normally; when
    [size[1] > aspect_ratio * size[0]] the result has size
    [(size[0], size[0] * aspect_ratio)], keeps [origin[0]] and is centred
    along index 1; otherwise it has size [(size[1] / aspect_ratio, size[1])],
    keeps [origin[1]] and is centred along index 0.  On
    [((0,0),(10,20))] with ratio [0.5] the result is
    [((0, 7.5), (10, 5.0))]. *)
Theorem fit_to_aspect_ratio_branches (rect : rect) (aspect_ratio : Q) :
  0 < aspect_ratio ->
  (aspect_ratio * rect.2.1 < rect.2.2 ->
     fit_to_aspect_ratio rect aspect_ratio =
       Ok ((rect.1.1, rect.1.2 + 0.5 * (rect.2.2 - rect.2.1 * aspect_ratio)),
           (rect.2.1, rect.2.1 * aspect_ratio))
     /\ rect.1.2 + 0.5 * (rect.2.2 - rect.2.1 * aspect_ratio)
          + 0.5 * (rect.2.1 * aspect_ratio) == rect.1.2 + 0.5 * rect.2.2)
  /\ (rect.2.2 <= aspect_ratio * rect.2.1 ->
     fit_to_aspect_ratio rect aspect_ratio =
       Ok ((rect.1.1 + 0.5 * (rect.2.1 - rect.2.2 / aspect_ratio), rect.1.2),
           (rect.2.2 / aspect_ratio, rect.2.2))
     /\ rect.1.1 + 0.5 * (rect.2.1 - rect.2.2 / aspect_ratio)
          + 0.5 * (rect.2.2 / aspect_ratio) == rect.1.1 + 0.5 * rect.2.1)
  /\ (exists r, fit_to_aspect_ratio ((0, 0), (10, 20)) 0.5 = Ok r
                /\ rect_eq r ((0, 7.5), (10, 5))).
Proof.
  intros Hpos. unfold fit_to_aspect_ratio, Py.gt. repeat split.
  - apply lt_true in H. now rewrite H.
  - lra.
  - apply lt_false in H. rewrite H.
    rewrite truediv_nonzero by lra. reflexivity.
  - lra.
  - eexists. split; [vm_compute; reflexivity|].
    repeat split; simpl; reflexivity.
Qed.

Lemma fit_to_aspect_ratio_branches_witness :
  0 < 0.5
  /\ fit_to_aspect_ratio ((0, 0), (10, 20)) 0.5 =
       Ok ((0, 0 + 0.5 * (20 - 10 * 0.5)), (10, 10 * 0.5)).
Proof.
  split; [reflexivity|].
  apply (fit_to_aspect_ratio_branches ((0, 0), (10, 20)) 0.5); reflexivity.
Defined.

(** C1, as stated, fails on its own example: the size returned for
    [((0,0),(10,20))] and ratio [0.5] is not [(5.0, 10.0)]. *)
Lemma fit_to_aspect_ratio_example_size :
  ~ exists origin size,
      fit_to_aspect_ratio ((0, 0), (10, 20)) 0.5 = Ok (origin, size)
      /\ point_eq size (5, 10).
Proof.
  intros (origin & size & Hfit & Hsize).
  vm_compute in Hfit. injection Hfit as <- <-.
  destruct Hsize as [H _]. vm_compute in H. discriminate.
Qed.

Lemma edges_flip (origin size : Q) :
  low_edge (origin + size) (- size) == low_edge origin size
  /\ high_edge (origin + size) (- size) == high_edge origin size.
Proof.
  unfold low_edge, high_edge.
  assert (E : origin + size + - size == origin) by ring.
  rewrite E. split; [apply Q.min_comm | apply Q.max_comm].
Qed.

Lemma normalize_bounds_size_nonneg (b : rect) :
  0 <= (normalize_bounds b).2.1 /\ 0 <= (normalize_bounds b).2.2.
Proof.
  destruct b as [[y x] [h w]]. unfold normalize_bounds. simpl.
  destruct (Py.lt h 0) eqn:Eh; simpl;
    destruct (Py.lt w 0) eqn:Ew; simpl;
    try apply lt_true in Eh; try apply lt_false in Eh;
    try apply lt_true in Ew; try apply lt_false in Ew; split; lra.
Qed.

Lemma normalize_bounds_same_region (b : rect) :
  same_region (normalize_bounds b) b.
Proof.
  destruct b as [[y x] [h w]]. unfold normalize_bounds, same_region. simpl.
  destruct (edges_flip y h) as [Ly Hy]. destruct (edges_flip x w) as [Lx Hx].
  destruct (Py.lt h 0); simpl; destruct (Py.lt w 0); simpl;
    repeat split; try reflexivity; assumption.
Qed.

(** C2.  Assigning a bounds value with a negative height or width to the
    [bounds] property of a RectangleGraphic or an EllipseGraphic stores a
    rectangle whose size components are non-negative and which describes the
    same region: along an axis with negative size the origin moves by the
    size and the size is negated, the other axis is kept.  Assigning
    [((0.5,0.5),(-0.2,0.3))] stores [((0.3,0.5),(0.2,0.3))]. *)
Theorem set_bounds_normalizes (b : rect) (g : RectangleGraphic.t)
    (e : EllipseGraphic.t) :
  b.2.1 < 0 \/ b.2.2 < 0 ->
  let stored := RectangleGraphic.bounds (RectangleGraphic.set_bounds g b) in
  EllipseGraphic.bounds (EllipseGraphic.set_bounds e b) = stored
  /\ 0 <= stored.2.1 /\ 0 <= stored.2.2
  /\ same_region stored b
  /\ (b.2.1 < 0 -> stored.1.1 == b.1.1 + b.2.1 /\ stored.2.1 == - b.2.1)
  /\ (0 <= b.2.1 -> stored.1.1 = b.1.1 /\ stored.2.1 = b.2.1)
  /\ (b.2.2 < 0 -> stored.1.2 == b.1.2 + b.2.2 /\ stored.2.2 == - b.2.2)
  /\ (0 <= b.2.2 -> stored.1.2 = b.1.2 /\ stored.2.2 = b.2.2)
  /\ rect_eq
       (RectangleGraphic.bounds
          (RectangleGraphic.set_bounds g ((0.5, 0.5), (-0.2, 0.3))))
       ((0.3, 0.5), (0.2, 0.3)).
Proof.
  intros _. simpl.
  split; [reflexivity|].
  split; [apply normalize_bounds_size_nonneg|].
  split; [apply normalize_bounds_size_nonneg|].
  split; [apply normalize_bounds_same_region|].
  destruct b as [[y x] [h w]]. unfold normalize_bounds. simpl.
  destruct (Py.lt h 0) eqn:Eh; simpl;
    destruct (Py.lt w 0) eqn:Ew; simpl;
    first [apply lt_true in Eh | apply lt_false in Eh];
    first [apply lt_true in Ew | apply lt_false in Ew];
    repeat split; try reflexivity; exfalso; lra.
Qed.

Lemma set_bounds_normalizes_witness :
  (-0.2 < 0 \/ 0.3 < 0)
  /\ same_region
       (RectangleGraphic.bounds
          (RectangleGraphic.set_bounds RectangleGraphic.init
             ((0.5, 0.5), (-0.2, 0.3))))
       ((0.5, 0.5), (-0.2, 0.3)).
Proof.
  split; [left; reflexivity|].
  apply (set_bounds_normalizes ((0.5, 0.5), (-0.2, 0.3))
           RectangleGraphic.init EllipseGraphic.init).
  left; reflexivity.
Defined.

(** Hit testing a rectangle or an ellipse has no failure path: the result
    is one of the five part identifiers or none. *)
Lemma test_rectangle_like_total (sqrt : Q -> Q) (bounds : rect)
    (mapping : Mapping) (p : point) (move_only : bool) :
  In (test_rectangle_like sqrt bounds mapping p move_only)
     [Some "top-left"; Some "top-right"; Some "bottom-right";
      Some "bottom-left"; Some "all"; None].
Proof.
  unfold test_rectangle_like.
  repeat match goal with
         | |- context [if ?c then _ else _] => destruct c
         end; simpl; tauto.
Qed.

Lemma move_only_all_or_none (sqrt : Q -> Q) (bounds : rect)
    (mapping : Mapping) (p : point) :
  In (test_rectangle_like sqrt bounds mapping p true) [Some "all"; None].
Proof.
  unfold test_rectangle_like. simpl.
  destruct (test_inside_bounds _ _ _); simpl; tauto.
Qed.

Lemma sqrt_floor_zero (x : Q) : x == 0 -> sqrt_floor x == 0.
Proof.
  unfold Qeq, sqrt_floor. simpl. intros H.
  assert (E : Qnum x = 0%Z) by lia.
  now rewrite E.
Qed.

Lemma closest_point_degenerate (sqrt : Q -> Q) (start end_ p : point) :
  (forall x, x == 0 -> sqrt x == 0) ->
  point_eq start end_ ->
  get_closest_point_on_line sqrt start end_ p = Raise ZeroDivisionError.
Proof.
  intros Hsqrt [H1 H2]. unfold get_closest_point_on_line.
  cbv zeta. cbn [fst snd].
  assert (E : sqrt ((end_.1 - start.1) ^ 2 + (end_.2 - start.2) ^ 2) == 0).
  { apply Hsqrt. rewrite H1, H2. ring. }
  now rewrite (truediv_zero (end_.1 - start.1) _ E).
Qed.

(** C7, on the code.  Hit testing a LineGraphic whose two end points map to
    the same widget point raises ZeroDivisionError whenever neither end
    point handle answers the test (always so when [move_only] is set): the
    length of the line is zero and [get_closest_point_on_line] divides by
    it. *)
Theorem line_test_degenerate_raises (sqrt : Q -> Q) (line : LineGraphic.t)
    (mapping : Mapping) (p : point) (move_only : bool) :
  (forall x, x == 0 -> sqrt x == 0) ->
  point_eq (map_point_image_norm_to_widget mapping (LineGraphic.start line))
           (map_point_image_norm_to_widget mapping (LineGraphic.end_ line)) ->
  negb move_only
  && test_point sqrt
       (map_point_image_norm_to_widget mapping (LineGraphic.start line)) p 4
  = false ->
  negb move_only
  && test_point sqrt
       (map_point_image_norm_to_widget mapping (LineGraphic.end_ line)) p 4
  = false ->
  LineGraphic.test sqrt line mapping p move_only = Raise ZeroDivisionError.
Proof.
  intros Hsqrt Heq H1 H2. unfold LineGraphic.test.
  rewrite H1, H2. unfold test_line.
  now rewrite closest_point_degenerate.
Qed.

Lemma line_test_degenerate_raises_witness :
  LineGraphic.test sqrt_floor
    {| LineGraphic.start := (0.5, 0.5); LineGraphic.end_ := (0.5, 0.5);
       LineGraphic.notifications := [] |}
    identity_mapping (10, 10) true
  = Raise ZeroDivisionError.
Proof.
  apply (line_test_degenerate_raises sqrt_floor
           {| LineGraphic.start := (0.5, 0.5); LineGraphic.end_ := (0.5, 0.5);
              LineGraphic.notifications := [] |}
           identity_mapping (10, 10) true).
  - exact sqrt_floor_zero.
  - split; reflexivity.
  - reflexivity.
  - reflexivity.
Defined.

(** The same failure with the end point handles enabled, and the three hit
    tests of a unit rectangle mapped 1:1. *)
Example line_test_degenerate_handles :
  LineGraphic.test sqrt_floor
    {| LineGraphic.start := (0.5, 0.5); LineGraphic.end_ := (0.5, 0.5);
       LineGraphic.notifications := [] |}
    identity_mapping (10, 10) false
  = Raise ZeroDivisionError.
Proof. vm_compute. reflexivity. Qed.

Example line_test_proper :
  LineGraphic.test sqrt_floor LineGraphic.init identity_mapping (3, 3) true
  = Ok (Some "all").
Proof. vm_compute. reflexivity. Qed.

Example rectangle_test_corner :
  RectangleGraphic.test sqrt_floor RectangleGraphic.init identity_mapping
    (0, 0) false = Some "top-left".
Proof. vm_compute. reflexivity. Qed.

Example rectangle_test_center :
  RectangleGraphic.test sqrt_floor RectangleGraphic.init identity_mapping
    (0.5, 0.5) true = Some "all".
Proof. vm_compute. reflexivity. Qed.

Example rectangle_test_outside :
  RectangleGraphic.test sqrt_floor RectangleGraphic.init identity_mapping
    (11, 11) false = None.
Proof. vm_compute. reflexivity. Qed.

End GraphicsFacts.

(** ** Operation *)

Section OperationFacts.

Import Operation.

Lemma eq_int (a b : Z) : Py.eq (PInt a) (PInt b) = (a =? b)%Z.
Proof.
  unfold Py.eq. simpl.
  destruct (Z.eqb_spec a b) as [->|Hne].
  - apply Qeq_bool_iff. reflexivity.
  - destruct (Qeq_bool (inject_Z a) (inject_Z b)) eqn:E; [|reflexivity].
    apply Qeq_bool_iff in E. unfold Qeq in E. simpl in E. lia.
Qed.

(** C4, on the code.  An OperationItem built for an id that is not
    registered is constructed, is named "Unavailable Operation", copies its
    data and passes calibrations and shape through; but
    [get_processed_intensity_calibration] raises NameError instead of
    returning its input. *)
Theorem unavailable_operation_item (lib : Numerics) (operations : registry)
    (operation_id : string) :
  operations !! operation_id = None ->
  let item := OperationItem.init operations operation_id in
  OperationItem.operation item = None
  /\ OperationItem.name item = "Unavailable Operation"
  /\ (forall data, OperationItem.process_data lib item data = Ok data)
  /\ (forall data_shape data_dtype source_calibrations,
        OperationItem.get_processed_calibrations lib item data_shape data_dtype
          source_calibrations = Ok source_calibrations)
  /\ (forall data_shape data_dtype,
        OperationItem.get_processed_data_shape_and_dtype lib item data_shape
          data_dtype = Ok (data_shape, data_dtype))
  /\ (forall data_shape data_dtype intensity_calibration,
        OperationItem.get_processed_intensity_calibration item data_shape
          data_dtype intensity_calibration
        = Raise (NameError "source_calibrations")).
Proof.
  intros Hno item.
  assert (E : OperationItem.operation item = None).
  { unfold item, OperationItem.init, build_operation. simpl. now rewrite Hno. }
  split; [exact E|].
  split.
  { unfold item, OperationItem.init, build_operation. simpl. now rewrite Hno. }
  unfold OperationItem.process_data, OperationItem.get_processed_calibrations,
    OperationItem.get_processed_data_shape_and_dtype,
    OperationItem.get_processed_intensity_calibration.
  rewrite E. repeat split.
Qed.

Lemma unavailable_operation_item_witness :
  OperationItem.get_processed_intensity_calibration
    (OperationItem.init builtin_operations "no-such-operation")
    [PInt 2; PInt 2] "float64" {| origin := 0; scale := 1; units := "nm" |}
  = Raise (NameError "source_calibrations").
Proof.
  apply (unavailable_operation_item plain_numerics builtin_operations
           "no-such-operation").
  vm_compute. reflexivity.
Defined.

(** The nine built-in ids are registered; an item for one of them carries
    the operation and its name. *)
Example builtin_resample_item :
  OperationItem.name (OperationItem.init builtin_operations "resample-operation")
  = "Resample"
  /\ OperationItem.properties
       (OperationItem.init builtin_operations "resample-operation")
     = ["width"; "height"].
Proof. split; vm_compute; reflexivity. Qed.

Lemma fresh_resample_parameters (default_value : pyval) :
  get_property new_Resample2dOperation "height" default_value = PInt 0
  /\ get_property new_Resample2dOperation "width" default_value = PInt 0.
Proof. split; reflexivity. Qed.

(** C6, on the code.  A Resample2dOperation as constructed has
    [height = 0] and [width = 0], so the defaults handed to [get_property]
    are never used: for a two-dimensional array that is not 0 by 0,
    processing calls [Image.scaled] with the target [(0, 0)], and the
    processed shape is reported as [(0, 0)] (followed by the channel count
    for colour data), not as the shape of the input.  The same holds
    through an OperationItem built from the registry. *)
Theorem resample_unset_parameters (lib : Numerics) (data : ndarray)
    (h w : Z) :
  shape data = [h; w] ->
  h <> 0%Z \/ w <> 0%Z ->
  process_data_in_place lib new_Resample2dOperation data
    = Image_scaled lib data (PInt 0, PInt 0)
  /\ OperationItem.process_data lib
       (OperationItem.init builtin_operations "resample-operation") data
     = Image_scaled lib data (PInt 0, PInt 0)
  /\ get_processed_data_shape_and_dtype lib new_Resample2dOperation
       (shape_tuple data) (dtype data)
     = Ok (if is_shape_and_dtype_rgb_or_rgba lib (shape_tuple data) (dtype data)
           then [PInt 0; PInt 0; PInt w] else [PInt 0; PInt 0],
           dtype data)
  /\ get_processed_data_shape_and_dtype lib new_Resample2dOperation
       (shape_tuple data) (dtype data)
     <> Ok (shape_tuple data, dtype data).
Proof.
  intros Hshape Hnz.
  assert (Hproc : process_data_in_place lib new_Resample2dOperation data
                  = Image_scaled lib data (PInt 0, PInt 0)).
  { unfold process_data_in_place, process_data_copy,
      Resample2d_process_data_copy, shape_tuple, ndarray_copy. simpl.
    rewrite Hshape. simpl.
    destruct (fresh_resample_parameters (PInt h)) as [-> _].
    destruct (fresh_resample_parameters (PInt w)) as [_ ->].
    rewrite !eq_int.
    destruct (Z.eqb_spec w 0); destruct (Z.eqb_spec h 0); simpl;
      try reflexivity. lia. }
  assert (Hshp : get_processed_data_shape_and_dtype lib new_Resample2dOperation
                   (shape_tuple data) (dtype data)
                 = Ok (if is_shape_and_dtype_rgb_or_rgba lib (shape_tuple data)
                            (dtype data)
                       then [PInt 0; PInt 0; PInt w] else [PInt 0; PInt 0],
                       dtype data)).
  { unfold get_processed_data_shape_and_dtype,
      Resample2d_get_processed_data_shape_and_dtype, shape_tuple. simpl.
    rewrite Hshape. simpl.
    destruct (fresh_resample_parameters (PInt h)) as [-> _].
    destruct (fresh_resample_parameters (PInt w)) as [_ ->].
    destruct (is_shape_and_dtype_rgb_or_rgba lib _ _); reflexivity. }
  split; [exact Hproc|]. split; [exact Hproc|]. split; [exact Hshp|].
  intros Heq. rewrite Hshp in Heq.
  unfold shape_tuple in Heq. rewrite Hshape in Heq. simpl in Heq.
  destruct (is_shape_and_dtype_rgb_or_rgba lib [PInt h; PInt w] (dtype data));
    inversion Heq; subst; lia.
Qed.

Lemma resample_unset_parameters_witness :
  get_processed_data_shape_and_dtype plain_numerics new_Resample2dOperation
    [PInt 2; PInt 3] "float64"
  = Ok ([PInt 0; PInt 0], "float64").
Proof.
  apply (resample_unset_parameters plain_numerics two_by_three 2 3).
  - reflexivity.
  - left. discriminate.
Defined.

(** With the zero parameters of a new instance the calibrations cannot
    be computed either. *)
Example fresh_resample_calibrations :
  get_processed_calibrations plain_numerics new_Resample2dOperation
    [PInt 2; PInt 3] "float64"
    [ {| origin := 0; scale := 1; units := "nm" |};
      {| origin := 0; scale := 1; units := "nm" |} ]
  = Raise ZeroDivisionError.
Proof. reflexivity. Qed.

(** Once [update_data_shape_and_dtype] has copied the shape of the data
    into the parameters of an item, processing returns the data. *)
Example resample_item_after_update :
  (item ← OperationItem.update_data_shape_and_dtype
            (OperationItem.init builtin_operations "resample-operation")
            [PInt 2; PInt 3] "float64";
   OperationItem.process_data plain_numerics item two_by_three)
  = Ok two_by_three
  /\ (item ← OperationItem.update_data_shape_and_dtype
               (OperationItem.init builtin_operations "resample-operation")
               [PInt 2; PInt 3] "float64";
      Ok (OperationItem.values item))
     = Ok (<["width" := PInt 3]> (<["height" := PInt 2]> ∅)).
Proof. split; vm_compute; reflexivity. Qed.

End OperationFacts.

(** ** Symbolic *)

Section SymbolicFacts.

Import Symbolic.

(** *** Typed reading and writing of values *)

Lemma Qminus_zero (q : Q) : (q - 0)%Q = q.
Proof.
  destruct q as [n d]. unfold Qminus, Qplus, Qopp. simpl.
  f_equal; [lia | apply Pos.mul_1_r].
Qed.

Lemma Qplus_zero (q : Q) : (0 + q)%Q = q.
Proof.
  destruct q as [n d]. unfold Qplus. simpl.
  f_equal. lia.
Qed.

(** C8.  For each scalar value type and each value of that type, the
    writer stores the value under the key of the property and the reader
    gives back the same value; the other keys are untouched.  The complex
    value [3+4i] is stored as the pair [(3.0, 4.0)] and read back as
    [3+4i]. *)
Theorem value_round_trip (text : Py.Text) (self : ComputationVariable.t)
    (key : string) (properties : gmap string pyval)
    (value_type : string) (value : pyval) :
  ComputationVariable.value_type self = Some value_type ->
  has_value_type value_type value ->
  exists stored,
    ComputationVariable.value_writer text self key properties value = Ok stored
    /\ ComputationVariable.value_reader text self key stored = Ok value
    /\ (forall other, other <> key -> stored !! other = properties !! other)
    /\ (value = PComplex 3 4 ->
        stored !! key = Some (PTuple [PFloat 3; PFloat 4])).
Proof.
  intros Htype Hvalue.
  unfold ComputationVariable.value_writer, ComputationVariable.value_reader,
    dict_get.
  rewrite Htype.
  destruct Hvalue; simpl; eexists; (split; [reflexivity|]);
    rewrite lookup_insert_eq; simpl;
    (split; [|split; [intros other Hother; now rewrite lookup_insert_ne
                     | intros Heq; try discriminate]]).
  - now destruct b.
  - reflexivity.
  - reflexivity.
  - unfold mbind, Py.result_bind. simpl.
    now rewrite Qminus_zero, Qplus_zero.
  - now inversion Heq.
  - reflexivity.
Qed.

Lemma value_round_trip_witness :
  exists stored,
    ComputationVariable.value_writer Py.plain_text complex_variable "value" ∅
      (PComplex 3 4) = Ok stored
    /\ ComputationVariable.value_reader Py.plain_text complex_variable "value"
         stored = Ok (PComplex 3 4)
    /\ (forall other, other <> "value" -> stored !! other = (∅ : gmap string pyval) !! other)
    /\ (PComplex 3 4 = PComplex 3 4 ->
        stored !! "value" = Some (PTuple [PFloat 3; PFloat 4])).
Proof.
  apply (value_round_trip Py.plain_text complex_variable "value" ∅ "complex"
           (PComplex 3 4)).
  - reflexivity.
  - constructor.
Defined.

(** A value that is absent is neither written nor read. *)
Lemma none_not_written (text : Py.Text) (self : ComputationVariable.t)
    (key : string) (properties : gmap string pyval) :
  ComputationVariable.value_writer text self key properties PNone = Ok properties
  /\ ComputationVariable.value_reader text self key (delete key properties)
     = Ok PNone.
Proof.
  split; [reflexivity|].
  unfold ComputationVariable.value_reader, dict_get.
  now rewrite lookup_delete_eq.
Qed.

(** *** Changing the type of a variable *)

(** C5, on the code.  For a variable in scalar form without a specifier,
    assigning ["data_item"] to [variable_type] raises [KeyError("uuid")]:
    the new dictionary [{"version": 1}] has no ["uuid"] to delete.  At that
    point [value_type], [control_type], [value_default], [value_min] and
    [value_max] are cleared, [value] and [specifier] are as before, and
    [variable_type_changed_event] has not fired. *)
Theorem scalar_to_data_item_raises (self : ComputationVariable.t)
    (value_type : string) :
  ComputationVariable.value_type self = Some value_type ->
  In value_type scalar_types ->
  ComputationVariable.specifier self = None ->
  exists self' fired,
    ComputationVariable.set_variable_type self "data_item"
      = ComputationVariable.Raised (KeyError "uuid") self'
    /\ ComputationVariable.value_type self' = None
    /\ ComputationVariable.control_type self' = None
    /\ ComputationVariable.value_default self' = PNone
    /\ ComputationVariable.value_min self' = PNone
    /\ ComputationVariable.value_max self' = PNone
    /\ ComputationVariable.value self' = ComputationVariable.value self
    /\ ComputationVariable.specifier self' = None
    /\ ComputationVariable.events self'
       = (ComputationVariable.events self ++ fired)%list
    /\ ~ In VariableTypeChangedEvent fired.
Proof.
  intros Htype Hin Hspec.
  destruct self as [u n l vt v vd vmin vmax sp ct cd ev].
  simpl in Htype, Hspec. subst vt sp.
  unfold ComputationVariable.set_variable_type,
    ComputationVariable.variable_type. simpl.
  assert (Hne : Py.eq (PStr "data_item") (PStr value_type) = false).
  { unfold scalar_types in Hin. simpl in Hin.
    destruct Hin as [<-|[<-|[<-|[<-|[<-|[]]]]]]; reflexivity. }
  rewrite Hne.
  eexists. eexists. split; [reflexivity|]. simpl.
  repeat split.
  - rewrite <- !app_assoc. reflexivity.
  - simpl. intros H.
    repeat (destruct H as [H|H]; [discriminate|]). exact H.
Qed.

Lemma scalar_to_data_item_raises_witness :
  exists self' fired,
    ComputationVariable.set_variable_type real_variable "data_item"
      = ComputationVariable.Raised (KeyError "uuid") self'
    /\ ComputationVariable.value_type self' = None
    /\ ComputationVariable.control_type self' = None
    /\ ComputationVariable.value_default self' = PNone
    /\ ComputationVariable.value_min self' = PNone
    /\ ComputationVariable.value_max self' = PNone
    /\ ComputationVariable.value self' = PFloat 1.5
    /\ ComputationVariable.specifier self' = None
    /\ ComputationVariable.events self'
       = (ComputationVariable.events real_variable ++ fired)%list
    /\ ~ In VariableTypeChangedEvent fired.
Proof.
  apply (scalar_to_data_item_raises real_variable "real").
  - reflexivity.
  - right. right. left. reflexivity.
  - reflexivity.
Defined.

(** The setter does succeed between the data-reference kinds, where the
    keys it deletes are present. *)
Example data_to_data_item :
  let self :=
    ComputationVariable.init "1b7e" (Some "d") None PNone PNone PNone PNone
      None
      (Some (<["version" := PInt 1]> (<["type" := PStr "data_item"]>
            (<["uuid" := PStr "93c2"]> (<["property" := PStr "data"]> ∅)))))
      None in
  exists self',
    ComputationVariable.set_variable_type self "data_item"
      = ComputationVariable.Returned self'
    /\ ComputationVariable.variable_type self' = PStr "data_item"
    /\ last (ComputationVariable.events self') = Some VariableTypeChangedEvent.
Proof. eexists. split; [vm_compute; reflexivity|]. split; reflexivity. Qed.

(** And between the scalar kinds. *)
Example real_to_integral :
  exists self',
    ComputationVariable.set_variable_type real_variable "integral"
      = ComputationVariable.Returned self'
    /\ ComputationVariable.value_type self' = Some "integral"
    /\ ComputationVariable.control_type self' = Some "slider"
    /\ ComputationVariable.value_default self' = PInt 0.
Proof. eexists. split; [vm_compute; reflexivity|]. repeat split. Qed.

(** *** Resolving object specifiers *)

(** C10.  When the uuid of an object specifier is that of a variable of
    the computation and that variable has a specifier, then
    [resolve_object_specifier] returns none, whatever the host context
    would answer. *)
Theorem reference_variable_resolves_to_none (rt : Runtime)
    (computation : Computation.t) (context : host_context)
    (object_specifier : gmap string pyval) (uuid_ : uuid)
    (variable : ComputationVariable.t) (specifier : gmap string pyval) :
  Py.truthy (dict_get object_specifier "uuid") = true ->
  convert_back rt (dict_get object_specifier "uuid") = Ok (Some uuid_) ->
  find (fun v => String.eqb (ComputationVariable.uuid v) uuid_)
       (Computation.variables computation) = Some variable ->
  ComputationVariable.specifier variable = Some specifier ->
  Computation.resolve_variable rt computation object_specifier
    = Ok (Some variable)
  /\ ComputationContext.resolve_object_specifier rt computation context
       object_specifier = Ok None.
Proof.
  intros Htruthy Hconv Hfind Hspec.
  assert (E : Computation.resolve_variable rt computation object_specifier
              = Ok (Some variable)).
  { unfold Computation.resolve_variable.
    rewrite Htruthy, Hconv. simpl. now rewrite Hfind. }
  split; [exact E|].
  unfold ComputationContext.resolve_object_specifier.
  rewrite E. simpl. now rewrite Hspec.
Qed.

Lemma reference_variable_resolves_to_none_witness :
  ComputationContext.resolve_object_specifier plain_runtime
    (with_variables (Computation.init None) [real_variable; reference_variable])
    eager_host {[ "uuid" := PStr "5d01" ]}
  = Ok None.
Proof.
  apply (reference_variable_resolves_to_none plain_runtime
           (with_variables (Computation.init None)
              [real_variable; reference_variable])
           eager_host {[ "uuid" := PStr "5d01" ]} "5d01" reference_variable
           data_reference); reflexivity.
Defined.

(** The two other cases of [resolve_object_specifier]: a scalar variable
    gives its handle, an unknown uuid goes to the host. *)
Example scalar_variable_resolves_to_handle :
  ComputationContext.resolve_object_specifier plain_runtime
    (with_variables (Computation.init None) [real_variable; reference_variable])
    eager_host {[ "uuid" := PStr "1b7e" ]}
  = Ok (Some (BoundVariable real_variable)).
Proof. reflexivity. Qed.

Example unknown_uuid_resolves_in_host :
  ComputationContext.resolve_object_specifier plain_runtime
    (with_variables (Computation.init None) [real_variable; reference_variable])
    eager_host data_reference
  = Ok (Some (HostItem (PObject 7))).
Proof. reflexivity. Qed.

(** *** The evaluation latch *)

Lemma run_calls_app (calls more : list Evaluation.call) (self : Computation.t) :
  Evaluation.run_calls (calls ++ more) self
  = let '(answers, self) := Evaluation.run_calls calls self in
    let '(answers', self) := Evaluation.run_calls more self in
    ((answers ++ answers')%list, self).
Proof.
  revert self. induction calls as [|c calls IH]; intros self; simpl.
  - now destruct (Evaluation.run_calls more self).
  - destruct c; simpl.
    + rewrite IH.
      destruct (Evaluation.run_calls calls _) as [answers self1].
      now destruct (Evaluation.run_calls more self1).
    + apply IH.
Qed.

(** C9.  [begin_evaluate] returns true exactly when no evaluation is
    marked in flight, and marks one in either case; [end_evaluate] clears
    the mark.  In every sequence of calls, a [begin_evaluate] that follows
    a [begin_evaluate] directly returns false and one that follows an
    [end_evaluate] directly returns true; on a new computation the calls
    begin, begin, end, begin return true, false, true. *)
Theorem evaluate_latch :
  (forall self,
     ((Computation.begin_evaluate self).1 = true
      <-> Computation.evaluating self = false)
     /\ Computation.evaluating (Computation.begin_evaluate self).2 = true
     /\ Computation.evaluating (Computation.end_evaluate self) = false)
  /\ (forall calls self,
        (Evaluation.run_calls
           (calls ++ [Evaluation.BeginEvaluate; Evaluation.BeginEvaluate])
           self).1
        = ((Evaluation.run_calls (calls ++ [Evaluation.BeginEvaluate]) self).1
           ++ [false])%list)
  /\ (forall calls self,
        (Evaluation.run_calls
           (calls ++ [Evaluation.EndEvaluate; Evaluation.BeginEvaluate])
           self).1
        = ((Evaluation.run_calls calls self).1 ++ [true])%list)
  /\ (forall expression,
        (Evaluation.run_calls
           [Evaluation.BeginEvaluate; Evaluation.BeginEvaluate;
            Evaluation.EndEvaluate; Evaluation.BeginEvaluate]
           (Computation.init expression)).1
        = [true; false; true]).
Proof.
  split; [|split; [|split]].
  - intros self. unfold Computation.begin_evaluate. simpl.
    repeat split; destruct (Computation.evaluating self); simpl; congruence.
  - intros calls self. rewrite !run_calls_app.
    destruct (Evaluation.run_calls calls self) as [answers self1]. simpl.
    now rewrite <- app_assoc.
  - intros calls self. rewrite run_calls_app.
    now destruct (Evaluation.run_calls calls self) as [answers self1].
  - reflexivity.
Qed.

(** *** Execution failures *)

Lemma assemble_needs_context (rt : Runtime) (self : Computation.t)
    (expression : string) :
  Computation.computation_context self = None ->
  Evaluation.assemble rt self expression
  = Raise (AttributeError "_Computation__computation_context").
Proof. intros H. unfold Evaluation.assemble. now rewrite H. Qed.

(** C3.  When the expression is not empty and the program assembled from
    it fails in execution with an exception that derives from [Exception],
    [__parse_expression] returns normally with [error_text] set to
    "Execution Error" and the cached result cleared; [evaluate] then
    returns no value, and so does an [evaluate] that does the parsing
    itself.  An exception that does not derive from [Exception] is not
    caught: [__parse_expression] raises it, and so does an [evaluate]
    that does the parsing. *)
Theorem execution_failure_is_caught (rt : Runtime) (self : Computation.t)
    (expression code : string) (g : globals) (e : exn) :
  expression <> "" ->
  Evaluation.assemble rt self expression = Ok (code, g) ->
  exec rt code g = Failed e ->
  (Py.is_exception e = true ->
   exists self',
     Evaluation.parse_expression rt self (Some expression) = Ok self'
     /\ Computation.error_text self' = Some "Execution Error"
     /\ Computation.data_and_metadata self' = PNone
     /\ Computation.needs_parse self' = false
     /\ (exists self'', Evaluation.evaluate rt self' = Ok (PNone, self''))
     /\ (Computation.original_expression self = Some expression ->
         Computation.needs_parse self = true ->
         exists self'',
           Evaluation.evaluate rt self = Ok (PNone, self'')
           /\ Computation.error_text self'' = Some "Execution Error"))
  /\ (Py.is_exception e = false ->
      Evaluation.parse_expression rt self (Some expression) = Raise e
      /\ (Computation.original_expression self = Some expression ->
          Computation.needs_parse self = true ->
          Evaluation.evaluate rt self = Raise e)).
Proof.
  intros Hne Hasm Hexec.
  destruct expression as [|c rest]; [contradiction|].
  split; intros Hcaught.
  - eexists. split.
    { unfold Evaluation.parse_expression. rewrite Hasm. simpl.
      unfold Evaluation.run. rewrite Hexec, Hcaught. reflexivity. }
    simpl. repeat split.
    + eexists. reflexivity.
    + intros Hexpr Hparse.
      unfold Evaluation.evaluate. simpl. rewrite Hparse, Hexpr.
      unfold Evaluation.parse_expression.
      change (Evaluation.assemble rt _ (String c rest))
        with (Evaluation.assemble rt self (String c rest)).
      rewrite Hasm. simpl. unfold Evaluation.run. rewrite Hexec, Hcaught.
      simpl. eexists. split; reflexivity.
  - split.
    + unfold Evaluation.parse_expression. rewrite Hasm. simpl.
      unfold Evaluation.run. rewrite Hexec, Hcaught. reflexivity.
    + intros Hexpr Hparse.
      unfold Evaluation.evaluate. simpl. rewrite Hparse, Hexpr.
      unfold Evaluation.parse_expression.
      change (Evaluation.assemble rt _ (String c rest))
        with (Evaluation.assemble rt self (String c rest)).
      rewrite Hasm. simpl. unfold Evaluation.run. rewrite Hexec, Hcaught.
      reflexivity.
Qed.

Lemma execution_failure_is_caught_witness :
  exists self',
    Evaluation.evaluate plain_runtime failing_computation = Ok (PNone, self')
    /\ Computation.error_text self' = Some "Execution Error".
Proof.
  destruct (execution_failure_is_caught plain_runtime failing_computation
              "undefined_name + 1"
              (Evaluation.assemble_code "undefined_name + 1")
              (<[Some "region_by_uuid" := Evaluation.region_by_uuid_partial]>
                 (<[Some "data_by_uuid" := Evaluation.data_by_uuid_partial]> ∅))
              (NameError "undefined"))
    as [Hcaught _].
  - discriminate.
  - reflexivity.
  - reflexivity.
  - destruct Hcaught as (self' & _ & _ & _ & _ & _ & Hevaluate);
      [reflexivity|].
    apply Hevaluate; reflexivity.
Defined.

(** C3, as stated for every program that raises, fails for an exception
    that does not derive from [Exception]: the program of
    [exit_expression] raises [SystemExit], which leaves
    [__parse_expression] and [evaluate]; no error text is set and no
    result is cleared. *)
Lemma system_exit_is_not_caught :
  exists code g,
    Evaluation.assemble plain_runtime exiting_computation exit_expression
      = Ok (code, g)
    /\ exec plain_runtime code g = Failed SystemExit
    /\ Evaluation.parse_expression plain_runtime exiting_computation
         (Some exit_expression) = Raise SystemExit
    /\ Evaluation.evaluate plain_runtime exiting_computation
       = Raise SystemExit
    /\ ~ exists self',
          Evaluation.parse_expression plain_runtime exiting_computation
            (Some exit_expression) = Ok self'
          /\ Computation.error_text self' = Some "Execution Error".
Proof.
  eexists. eexists. split; [reflexivity|].
  split; [reflexivity|]. split; [reflexivity|]. split; [reflexivity|].
  intros (self' & H & _). vm_compute in H. discriminate.
Qed.

(** The program assembled from an expression of several lines, and an
    expression that runs to its end. *)
Example assemble_code_lines :
  Evaluation.assemble_code ("import math" +:+ Py.newline +:+ "math.pi")
  = "import uuid" +:+ Py.newline +:+ "import math" +:+ Py.newline
    +:+ "result = math.pi".
Proof. reflexivity. Qed.

Example evaluate_success :
  exists self',
    Evaluation.evaluate plain_runtime
      (Computation.bind (Computation.init (Some "1 - 1")) empty_host)
    = Ok (PInt 0, self')
    /\ Computation.error_text self' = None.
Proof. eexists. split; reflexivity. Qed.

End SymbolicFacts.

(** ** Graphics: fitting, hit testing and dragging *)

Section GraphicsGeometry.

Import Graphics.
Local Open Scope Q_scope.

Lemma gt_true (x y : Q) : Py.gt x y = true <-> y < x.
Proof. unfold Py.gt. apply lt_true. Qed.

Lemma gt_false (x y : Q) : Py.gt x y = false <-> x <= y.
Proof. unfold Py.gt. apply lt_false. Qed.

Lemma div_mul_cancel (x y : Q) : ~ y == 0 -> y * (x / y) == x.
Proof. intros H. field. exact H. Qed.



Lemma div_zero_iff (x y : Q) : ~ y == 0 -> (x / y == 0 <-> x == 0).
Proof.
  intros Hy. split; intros H.
  - rewrite <- (div_mul_cancel x y Hy), H. ring.
  - rewrite H. field. exact Hy.
Qed.

(** X2.  [fit_to_size] raises ZeroDivisionError exactly when
    [fit_size[0]] is zero, or [fit_size[1]] is zero and [rect] has no
    positive [size[1]]; in every other case it returns a rectangle. *)
Theorem fit_to_size_errors (rect : rect) (fit_size : point) :
  (fit_to_size rect fit_size = Raise ZeroDivisionError
   <-> fit_size.1 == 0 \/ (fit_size.2 == 0 /\ rect.2.2 <= 0))
  /\ (~ (fit_size.1 == 0 \/ (fit_size.2 == 0 /\ rect.2.2 <= 0))
      -> exists r, fit_to_size rect fit_size = Ok r).
Proof.
  destruct rect as [[y x] [h w]]. destruct fit_size as [fh fw].
  unfold fit_to_size. cbn [fst snd].
  destruct (Qeq_dec fh 0) as [Hfh|Hfh].
  - rewrite (truediv_zero fw fh Hfh). split.
    + split; [intros _; now left | reflexivity].
    + intros H. exfalso. apply H. now left.
  - rewrite (truediv_nonzero fw fh Hfh). cbn.
    unfold fit_to_aspect_ratio. cbn [fst snd].
    destruct (Py.gt w (fw / fh * h)) eqn:E.
    + apply gt_true in E. split.
      * split; [discriminate|].
        intros [H|[H1 H2]]; [contradiction|].
        apply (div_zero_iff fw fh Hfh) in H1. rewrite H1 in E. lra.
      * intros _. eexists. reflexivity.
    + apply gt_false in E.
      destruct (Qeq_dec (fw / fh) 0) as [Hr|Hr].
      * rewrite (truediv_zero w _ Hr). split.
        -- split; [|reflexivity]. intros _. right.
           split; [now apply (div_zero_iff fw fh Hfh)|].
           rewrite Hr in E. lra.
        -- intros H. exfalso. apply H. right.
           split; [now apply (div_zero_iff fw fh Hfh)|].
           rewrite Hr in E. lra.
      * rewrite (truediv_nonzero w _ Hr). split.
        -- split; [discriminate|].
           intros [H|[H1 H2]]; [contradiction|].
           apply (div_zero_iff fw fh Hfh) in H1. contradiction.
        -- intros _. eexists. reflexivity.
Qed.


End GraphicsGeometry.

Section GraphicsInteraction.

Import Graphics.
Local Open Scope Q_scope.

Lemma le_true (x y : Q) : Py.le x y = true <-> x <= y.
Proof. unfold Py.le. apply Qle_bool_iff. Qed.

Lemma inside_bounds_iff (sqrt : Q -> Q) (bounds : rect) (p : point) (radius : Q) :
  test_inside_bounds bounds p radius = true
  <-> (bounds.1.1 < p.1 /\ p.1 <= bounds.1.1 + bounds.2.1)
      /\ (bounds.1.2 < p.2 /\ p.2 <= bounds.1.2 + bounds.2.2).
Proof.
  unfold test_inside_bounds.
  rewrite !andb_true_iff, !gt_true, !le_true. tauto.
Qed.

(** X5.  With [move_only] set, the hit test of a rectangle and of an
    ellipse answers "all" exactly for the points of the bounding box in
    widget coordinates, its far edges included and its near edges
    excluded, and none for every other point; a box without positive
    height and width is never hit.  For an ellipse the corners of the box
    outside the curve count as hits too. *)
Theorem move_only_hits_the_box (sqrt : Q -> Q) (bounds : rect)
    (mapping : Mapping) (p : point) :
  let origin := map_point_image_norm_to_widget mapping bounds.1 in
  let size := map_size_image_norm_to_widget mapping bounds.2 in
  let inside := (origin.1 < p.1 /\ p.1 <= origin.1 + size.1)
                /\ (origin.2 < p.2 /\ p.2 <= origin.2 + size.2) in
  forall (r : RectangleGraphic.t) (e : EllipseGraphic.t),
  RectangleGraphic.bounds r = bounds -> EllipseGraphic.bounds e = bounds ->
  (RectangleGraphic.test sqrt r mapping p true = Some "all" <-> inside)
  /\ (RectangleGraphic.test sqrt r mapping p true = None <-> ~ inside)
  /\ EllipseGraphic.test sqrt e mapping p true
     = RectangleGraphic.test sqrt r mapping p true
  /\ (size.1 <= 0 \/ size.2 <= 0 ->
      RectangleGraphic.test sqrt r mapping p true = None).
Proof.
  intros origin size inside r e Hr He.
  unfold RectangleGraphic.test, EllipseGraphic.test. rewrite Hr, He.
  unfold test_rectangle_like. cbn [negb andb].
  fold origin. fold size.
  pose proof (inside_bounds_iff sqrt (origin, size) p 4) as Hin.
  cbn [fst snd] in Hin. fold inside in Hin.
  destruct (test_inside_bounds (origin, size) p 4).
  - assert (Hi : inside) by now apply Hin.
    split; [split; [intros _; exact Hi | reflexivity]|].
    split; [split; [discriminate | intros Hn; contradiction]|].
    split; [reflexivity|].
    intros Hs. exfalso. unfold inside in Hi. lra.
  - assert (Hi : ~ inside) by (intros H; apply Hin in H; discriminate).
    split; [split; [discriminate | intros H; contradiction]|].
    split; [split; [intros _; exact Hi | reflexivity]|].
    split; reflexivity.
Qed.

Lemma move_only_hits_the_box_witness :
  RectangleGraphic.test sqrt_floor RectangleGraphic.init identity_mapping
    (1, 1) true = Some "all"
  <-> (0 < 1 /\ 1 <= 0 + 1) /\ (0 < 1 /\ 1 <= 0 + 1).
Proof.
  apply (move_only_hits_the_box sqrt_floor ((0, 0), (1, 1)) identity_mapping
           (1, 1) RectangleGraphic.init EllipseGraphic.init); reflexivity.
Defined.

Lemma corner_cases (part0 : string) (P : string -> Prop) :
  In part0 corners ->
  P "top-left" -> P "top-right" -> P "bottom-right" -> P "bottom-left" ->
  P part0.
Proof.
  unfold corners. simpl.
  intros [<-|[<-|[<-|[<-|[]]]]]; auto.
Qed.

Ltac branch_sizes :=
  repeat match goal with
         | |- context [Py.gt ?a ?b] =>
             let E := fresh "E" in destruct (Py.gt a b) eqn:E
         end;
  cbn [fst snd].





(** X7.  With Alt held, dragging any corner, with or without Shift, keeps
    the centre of the bounds where it was. *)
Theorem alt_drag_keeps_center (old_origin old_size delta : point)
    (part0 : string) (shift_held : bool) :
  In part0 corners ->
  let b := adjusted_bounds old_origin old_size delta part0
             {| alt := true; shift := shift_held |} in
  b.1.1 + 0.5 * b.2.1 == old_origin.1 + 0.5 * old_size.1
  /\ b.1.2 + 0.5 * b.2.2 == old_origin.2 + 0.5 * old_size.2.
Proof.
  intros Hin. destruct old_origin as [y x]. destruct old_size as [h w].
  destruct delta as [dy dx].
  apply (corner_cases part0
           (fun part0 =>
              let b := adjusted_bounds (y, x) (h, w) (dy, dx) part0
                         {| alt := true; shift := shift_held |} in
              b.1.1 + 0.5 * b.2.1 == (y, x).1 + 0.5 * (h, w).1
              /\ b.1.2 + 0.5 * b.2.2 == (y, x).2 + 0.5 * (h, w).2) Hin);
    cbv zeta; unfold adjusted_bounds;
    cbn [String.eqb Ascii.eqb Bool.eqb alt shift fst snd];
    destruct shift_held; cbn [fst snd]; branch_sizes; split; ring.
Qed.

Lemma alt_drag_keeps_center_witness :
  In "top-right" corners
  /\ (adjusted_bounds (10, 20) (30, 40) (5, -7) "top-right"
        {| alt := true; shift := false |}).1.1
     + 0.5 * (adjusted_bounds (10, 20) (30, 40) (5, -7) "top-right"
                {| alt := true; shift := false |}).2.1
     == 10 + 0.5 * 30.
Proof.
  split; [simpl; tauto|].
  apply (alt_drag_keeps_center (10, 20) (30, 40) (5, -7) "top-right" false).
  simpl; tauto.
Defined.

(** X8.  Without Alt, dragging a corner keeps the opposite corner of the
    bounds fixed, with or without Shift; without Shift the dragged corner,
    each of the four, moves by the drag delta.  Dragging the part "all"
    moves the origin by the delta and keeps the size, and a part with any
    other name leaves the bounds as they were. *)
Theorem plain_drag_keeps_opposite_corner (old_origin old_size delta : point)
    (shift_held : bool) :
  let m := {| alt := false; shift := shift_held |} in
  let far (b : rect) : point := (b.1.1 + b.2.1, b.1.2 + b.2.2) in
  let old := (old_origin, old_size) in
  let tl := adjusted_bounds old_origin old_size delta "top-left" m in
  let tr := adjusted_bounds old_origin old_size delta "top-right" m in
  let br := adjusted_bounds old_origin old_size delta "bottom-right" m in
  let bl := adjusted_bounds old_origin old_size delta "bottom-left" m in
  point_eq (far tl) (far old)
  /\ ((far tr).1 == (far old).1 /\ tr.1.2 == old_origin.2)
  /\ point_eq br.1 old_origin
  /\ (bl.1.1 == old_origin.1 /\ (far bl).2 == (far old).2)
  /\ (shift_held = false ->
      point_eq tl.1 (old_origin.1 + delta.1, old_origin.2 + delta.2)
      /\ point_eq (tr.1.1, (far tr).2)
           (old_origin.1 + delta.1, (far old).2 + delta.2)
      /\ point_eq (far br)
           ((far old).1 + delta.1, (far old).2 + delta.2)
      /\ point_eq ((far bl).1, bl.1.2)
           ((far old).1 + delta.1, old_origin.2 + delta.2))
  /\ adjusted_bounds old_origin old_size delta "all" m
     = ((old_origin.1 + delta.1, old_origin.2 + delta.2), old_size)
  /\ (forall part0, ~ In part0 ("all" :: corners) ->
      adjusted_bounds old_origin old_size delta part0 m = old).
Proof.
  destruct old_origin as [y x]. destruct old_size as [h w].
  destruct delta as [dy dx]. cbv zeta.
  split; [|split; [|split; [|split; [|split; [|split]]]]].
  1-4: unfold adjusted_bounds, point_eq;
       cbn [String.eqb Ascii.eqb Bool.eqb alt shift fst snd];
       destruct shift_held; cbn [fst snd]; branch_sizes; split; ring.
  - intros ->. unfold adjusted_bounds, point_eq.
    cbn [String.eqb Ascii.eqb Bool.eqb alt shift fst snd].
    repeat split; ring.
  - reflexivity.
  - intros part0 Hnot. unfold adjusted_bounds.
    assert (Hne : forall s, In s ("all" :: corners) -> String.eqb part0 s = false).
    { intros s Hs. apply String.eqb_neq. intros ->. contradiction. }
    rewrite !Hne by (unfold corners; simpl; tauto).
    reflexivity.
Qed.

End GraphicsInteraction.

Section GraphicsLines.

Import Graphics.
Local Open Scope Q_scope.

(** X9.  Every RectangleGraphic reached from a new one by assignments to
    [bounds] and by drags of any part, with any mapping and modifiers, has
    bounds of non-negative height and width. *)
Theorem rectangle_size_never_negative (self : RectangleGraphic.t) :
  rectangle_reachable self ->
  0 <= (RectangleGraphic.bounds self).2.1
  /\ 0 <= (RectangleGraphic.bounds self).2.2.
Proof.
  intros H. induction H.
  - simpl. split; lra.
  - apply normalize_bounds_size_nonneg.
  - apply normalize_bounds_size_nonneg.
Qed.

Lemma rectangle_size_never_negative_witness :
  0 <= (RectangleGraphic.bounds
          (rectangle_adjust_part RectangleGraphic.init pixel_mapping
             (0, 0) (150, 250) ("top-left", ((0, 0), (1, 1)))
             {| alt := false; shift := false |})).2.1.
Proof.
  apply (rectangle_size_never_negative
           (rectangle_adjust_part RectangleGraphic.init pixel_mapping
              (0, 0) (150, 250) ("top-left", ((0, 0), (1, 1)))
              {| alt := false; shift := false |})).
  apply reach_adjust_part. apply reach_init.
Defined.

(** A drag past the opposite corner: the bounds are turned over, not
    left with negative sizes. *)
Example drag_past_opposite_corner :
  rect_eq
    (RectangleGraphic.bounds
       (rectangle_adjust_part RectangleGraphic.init pixel_mapping
          (0, 0) (150, 250) ("top-left", ((0, 0), (1, 1)))
          {| alt := false; shift := false |}))
    ((1, 1), (0.5, 0.25)).
Proof. vm_compute. repeat split. Qed.


(** X11.  Dragging the start of a line never changes its end, and with
    Shift held the new start is level with the end in image coordinates
    along one of the two axes; the same holds for the end with respect to
    the start. *)
Theorem line_drag_end_point (self : LineGraphic.t) (mapping : DragMapping)
    (original current start0 end0 : point) (shift_held alt_held : bool) :
  let m := {| alt := alt_held; shift := shift_held |} in
  let to_image := map_point_image_norm_to_image mapping in
  let to_norm := map_point_image_to_image_norm mapping in
  let drag_start :=
    line_adjust_part self mapping original current ("start", start0, end0) m in
  let drag_end :=
    line_adjust_part self mapping original current ("end", start0, end0) m in
  LineGraphic.end_ drag_start = LineGraphic.end_ self
  /\ LineGraphic.start drag_end = LineGraphic.start self
  /\ (shift_held = false ->
      LineGraphic.start drag_start
        = to_norm (map_point_widget_to_image mapping current)
      /\ LineGraphic.end_ drag_end
         = to_norm (map_point_widget_to_image mapping current))
  /\ (shift_held = true ->
      (exists q, LineGraphic.start drag_start = to_norm q
                 /\ (q.1 = (to_image (LineGraphic.end_ self)).1
                     \/ q.2 = (to_image (LineGraphic.end_ self)).2))
      /\ (exists q, LineGraphic.end_ drag_end = to_norm q
                    /\ (q.1 = (to_image (LineGraphic.start self)).1
                        \/ q.2 = (to_image (LineGraphic.start self)).2))).
Proof.
  cbv zeta. unfold line_adjust_part.
  cbn [String.eqb Ascii.eqb Bool.eqb fst snd alt shift].
  split; [reflexivity|]. split; [reflexivity|]. split.
  - intros ->. split; reflexivity.
  - intros ->. split.
    + destruct (Py.gt _ _); eexists; (split; [reflexivity|]);
        cbn [fst snd]; [right | left]; reflexivity.
    + destruct (Py.gt _ _); eexists; (split; [reflexivity|]);
        cbn [fst snd]; [right | left]; reflexivity.
Qed.

Section WithSqrt.

Variable sqrt : Q -> Q.

(** The square of the length of a line. *)
Let squared_length (start end_ : point) : Q :=
  (end_.1 - start.1) ^ 2 + (end_.2 - start.2) ^ 2.

(** X12.  For a line whose length, as [math.sqrt] gives it, is positive,
    [get_closest_point_on_line] returns a point of the segment from start
    to end: [start + u * (end - start)] for some [u] between 0 and 1. *)
Theorem closest_point_is_on_segment (start end_ p : point) :
  0 < sqrt (squared_length start end_) ->
  exists cp u,
    get_closest_point_on_line sqrt start end_ p = Ok cp
    /\ 0 <= u /\ u <= 1
    /\ cp.1 == start.1 + u * (end_.1 - start.1)
    /\ cp.2 == start.2 + u * (end_.2 - start.2).
Proof.
  unfold squared_length. intros Hlen.
  unfold get_closest_point_on_line. cbv zeta. cbn [fst snd].
  set (len := sqrt ((end_.1 - start.1) ^ 2 + (end_.2 - start.2) ^ 2)) in *.
  rewrite !truediv_nonzero by lra. cbn [mbind Py.result_bind fst snd].
  set (t := (end_.1 - start.1) / len * (p.1 - start.1)
            + (end_.2 - start.2) / len * (p.2 - start.2)).
  destruct (Py.lt t 0) eqn:E0.
  - exists start, 0. split; [reflexivity|]. repeat split; try lra; ring.
  - apply lt_false in E0.
    destruct (Py.gt t len) eqn:E1.
    + exists end_, 1. split; [reflexivity|]. repeat split; try lra; ring.
    + apply gt_false in E1.
      eexists. exists (t / len). split; [reflexivity|]. cbn [fst snd].
      assert (Hu : len * (t / len) == t) by (apply div_mul_cancel; lra).
      split.
      { apply Qmult_le_l with (z := len); [exact Hlen|]. rewrite Hu. lra. }
      split.
      { apply Qmult_le_l with (z := len); [exact Hlen|]. rewrite Hu. lra. }
      split; field; lra.
Qed.

(** X13.  The hit test of a line raises ZeroDivisionError exactly when
    [math.sqrt] gives the length of the mapped line as zero and neither end
    point handle answers first; in every other case it returns "start",
    "end", "all" or none. *)
Theorem line_test_fails_only_at_zero_length (line : LineGraphic.t)
    (mapping : Mapping) (p : point) (move_only : bool) :
  let p1 := map_point_image_norm_to_widget mapping (LineGraphic.start line) in
  let p2 := map_point_image_norm_to_widget mapping (LineGraphic.end_ line) in
  let missed :=
    negb move_only && test_point sqrt p1 p 4 = false
    /\ negb move_only && test_point sqrt p2 p 4 = false in
  (LineGraphic.test sqrt line mapping p move_only = Raise ZeroDivisionError
   <-> sqrt (squared_length p1 p2) == 0 /\ missed)
  /\ (~ (sqrt (squared_length p1 p2) == 0 /\ missed) ->
      exists part,
        LineGraphic.test sqrt line mapping p move_only = Ok part
        /\ In part [Some "start"; Some "end"; Some "all"; None]).
Proof.
  cbv zeta. unfold squared_length, LineGraphic.test, test_line.
  set (p1 := map_point_image_norm_to_widget mapping (LineGraphic.start line)).
  set (p2 := map_point_image_norm_to_widget mapping (LineGraphic.end_ line)).
  destruct (negb move_only && test_point sqrt p1 p 4) eqn:H1.
  { split.
    - split; [discriminate | intros (_ & Hm & _); discriminate].
    - intros _. eexists. split; [reflexivity|]. simpl. tauto. }
  destruct (negb move_only && test_point sqrt p2 p 4) eqn:H2.
  { split.
    - split; [discriminate | intros (_ & _ & Hm); discriminate].
    - intros _. eexists. split; [reflexivity|]. simpl. tauto. }
  unfold get_closest_point_on_line. cbv zeta. cbn [fst snd].
  set (len := sqrt ((p2.1 - p1.1) ^ 2 + (p2.2 - p1.2) ^ 2)).
  destruct (Qeq_dec len 0) as [Hz|Hnz].
  - rewrite (truediv_zero (p2.1 - p1.1) len Hz). split.
    + split; [intros _; repeat split; assumption | reflexivity].
    + intros H. exfalso. apply H. repeat split; assumption.
  - rewrite !(truediv_nonzero _ len Hnz). cbn [mbind Py.result_bind fst snd].
    split.
    + split; [|intros (Hz & _); contradiction].
      repeat first
        [ progress cbn [mbind Py.result_bind]
        | match goal with
          | |- context [if ?c then _ else _] => destruct c
          end ]; discriminate.
    + intros _.
      repeat first
        [ progress cbn [mbind Py.result_bind]
        | match goal with
          | |- context [if ?c then _ else _] => destruct c
          end ]; eexists; (split; [reflexivity|]); simpl; tauto.
Qed.

(** X14.  With the handles enabled, a test point exactly on the mapped
    start of a line answers "start", also for a line of length zero,
    provided [math.sqrt] gives zero at zero. *)
Theorem line_test_on_start (line : LineGraphic.t) (mapping : Mapping) :
  (forall x, x == 0 -> sqrt x == 0) ->
  LineGraphic.test sqrt line mapping
    (map_point_image_norm_to_widget mapping (LineGraphic.start line)) false
  = Ok (Some "start").
Proof.
  intros Hsqrt. unfold LineGraphic.test, test_point. cbn [negb andb].
  set (p1 := map_point_image_norm_to_widget mapping (LineGraphic.start line)).
  assert (E : Py.lt (sqrt ((p1.1 - p1.1) ^ 2 + (p1.2 - p1.2) ^ 2)) 4 = true).
  { apply lt_true.
    assert (H0 : sqrt ((p1.1 - p1.1) ^ 2 + (p1.2 - p1.2) ^ 2) == 0)
      by (apply Hsqrt; ring).
    rewrite H0. reflexivity. }
  now rewrite E.
Qed.

End WithSqrt.

Lemma closest_point_is_on_segment_witness :
  exists cp u,
    get_closest_point_on_line sqrt_floor (0, 0) (3, 4) (5, 0) = Ok cp
    /\ 0 <= u /\ u <= 1
    /\ cp.1 == 0 + u * (3 - 0)
    /\ cp.2 == 0 + u * (4 - 0).
Proof.
  apply (closest_point_is_on_segment sqrt_floor (0, 0) (3, 4) (5, 0)).
  reflexivity.
Defined.

Lemma line_test_on_start_witness :
  LineGraphic.test sqrt_floor
    {| LineGraphic.start := (0.5, 0.5); LineGraphic.end_ := (0.5, 0.5);
       LineGraphic.notifications := [] |}
    identity_mapping (0.5, 0.5) false
  = Ok (Some "start").
Proof.
  apply (line_test_on_start sqrt_floor
           {| LineGraphic.start := (0.5, 0.5); LineGraphic.end_ := (0.5, 0.5);
              LineGraphic.notifications := [] |}
           identity_mapping).
  exact sqrt_floor_zero.
Defined.

End GraphicsLines.

(** ** Operation: registry, parameters and graphics *)

Section OperationRegistry.

Import Operation.

(** X15.  Building an id right after registering a factory for it calls
    that factory, also when the id was registered before, and the other
    ids build as they did.  Unregistering an id that is not registered
    raises KeyError; unregistering a registered id makes it build none and
    leaves the other ids alone, and undoes the registration of an id that
    was new. *)
Theorem registry_round_trip (operations : registry) (operation_id : string)
    (create_operation_fn : unit -> Operation) :
  let registered :=
    register_operation operations operation_id create_operation_fn in
  build_operation registered operation_id = Some (create_operation_fn tt)
  /\ (forall other, other <> operation_id ->
        build_operation registered other = build_operation operations other)
  /\ (operations !! operation_id = None ->
        unregister_operation operations operation_id
          = Raise (KeyError operation_id)
        /\ unregister_operation registered operation_id = Ok operations)
  /\ (exists removed,
        unregister_operation registered operation_id = Ok removed
        /\ build_operation removed operation_id = None
        /\ forall other, other <> operation_id ->
             build_operation removed other = build_operation operations other).
Proof.
  cbv zeta. unfold register_operation, unregister_operation, build_operation.
  unfold registry in *.
  rewrite lookup_insert_eq.
  split; [reflexivity|].
  split; [intros other Hne; now rewrite lookup_insert_ne|].
  split.
  - intros Hnone. rewrite Hnone. split; [reflexivity|].
    now rewrite delete_insert_id.
  - eexists. split; [reflexivity|].
    rewrite lookup_delete_eq. split; [reflexivity|].
    intros other Hne.
    now rewrite lookup_delete_ne, lookup_insert_ne.
Qed.

Lemma builtin_lookup (operation_id : string) (op : Operation) :
  build_operation builtin_operations operation_id = Some op ->
  In (operation_id, op)
     [("fft-operation", new_FFTOperation);
      ("inverse-fft-operation", new_IFFTOperation);
      ("invert-operation", new_InvertOperation);
      ("gaussian-blur-operation", new_GaussianBlurOperation);
      ("crop-operation", new_Crop2dOperation);
      ("resample-operation", new_Resample2dOperation);
      ("histogram-operation", new_HistogramOperation);
      ("line-profile-operation", new_LineProfileOperation);
      ("convert-to-scalar-operation", new_ConvertToScalarOperation)].
Proof.
  unfold build_operation.
  destruct (builtin_operations !! operation_id) as [f|] eqn:E; [|discriminate].
  intros [= <-].
  unfold builtin_operations, register_operation in E. cbv zeta in E.
  unfold registry in *.
  repeat (apply lookup_insert_Some in E;
          destruct E as [[<- <-]|[_ E]]; [simpl; tauto|]).
  rewrite lookup_empty in E. discriminate.
Qed.

(** X16.  The registry built by the module knows exactly the nine
    built-in ids.  The operation built for an id carries that id, and it
    has an attribute for every property of its description, so that
    [Operation.get_property] never returns the default it is given for a
    described property. *)
Theorem builtin_operations_consistent (operation_id : string) :
  (In operation_id builtin_ids
   <-> exists op, build_operation builtin_operations operation_id = Some op)
  /\ (forall op,
        build_operation builtin_operations operation_id = Some op ->
        Operation.operation_id op = operation_id
        /\ OperationItem.name (OperationItem.init builtin_operations operation_id)
           = Operation.name op
        /\ forall entry default_value,
             In entry (description op) ->
             exists value,
               attributes op !! entry_property entry = Some value
               /\ get_property op (entry_property entry) default_value = value).
Proof.
  split.
  - split.
    + unfold builtin_ids. simpl.
      intros [<-|[<-|[<-|[<-|[<-|[<-|[<-|[<-|[<-|[]]]]]]]]]];
        eexists; vm_compute; reflexivity.
    + intros [op Hop]. apply builtin_lookup in Hop. simpl in Hop.
      unfold builtin_ids. simpl.
      repeat (destruct Hop as [[= <- <-]|Hop]; [tauto|]). contradiction.
  - intros op Hop.
    assert (Hname : OperationItem.name
                      (OperationItem.init builtin_operations operation_id)
                    = Operation.name op).
    { unfold OperationItem.init. now rewrite Hop. }
    apply builtin_lookup in Hop. simpl in Hop.
    repeat (destruct Hop as [[= <- <-]|Hop];
            [ split; [reflexivity|]; split; [exact Hname|];
              intros entry default_value Hentry; simpl in Hentry;
              repeat (destruct Hentry as [<-|Hentry];
                      [eexists; split; vm_compute; reflexivity|]);
              contradiction
            | ]).
    contradiction.
Qed.

(** X17.  A parameter written with [set_property] is read back by
    [get_property] whatever default is passed, is mirrored on the operation
    of the item, where [Operation.get_property] reads it back too, and the
    other parameters read as before. *)
Theorem set_property_round_trip (self : OperationItem.t) (property_id : string)
    (value default_value : pyval) :
  let written := OperationItem.set_property self property_id value in
  OperationItem.get_property written property_id default_value = value
  /\ (forall op, OperationItem.operation self = Some op ->
        exists op',
          OperationItem.operation written = Some op'
          /\ get_property op' property_id default_value = value
          /\ forall other, other <> property_id ->
               get_property op' other default_value
               = get_property op other default_value)
  /\ (OperationItem.operation self = None ->
      OperationItem.operation written = None)
  /\ (forall other, other <> property_id ->
        OperationItem.get_property written other default_value
        = OperationItem.get_property self other default_value).
Proof.
  cbv zeta. unfold OperationItem.set_property, OperationItem.get_property.
  cbn [OperationItem.values OperationItem.operation OperationItem.description].
  rewrite lookup_insert_eq. split; [reflexivity|]. split.
  - intros op ->. eexists. split; [reflexivity|].
    unfold get_property, setattr. cbn [attributes].
    rewrite lookup_insert_eq. split; [reflexivity|].
    intros other Hne. now rewrite lookup_insert_ne.
  - split; [intros ->; reflexivity|].
    intros other Hne. now rewrite lookup_insert_ne.
Qed.

End OperationRegistry.

Section OperationDefaults.

Import Operation.

Lemma set_default_at_keeps (property_id : string) (default_value : pyval)
    (self : OperationItem.t) (entry : description_entry) (k : string) (v : pyval) :
  OperationItem.values self !! k = Some v -> v <> PNone ->
  OperationItem.values
    (OperationItem.set_default_at property_id default_value self entry).1 !! k
  = Some v.
Proof.
  intros Hk Hv. unfold OperationItem.set_default_at.
  destruct (String.eqb (entry_property entry) property_id); [|exact Hk].
  destruct (OperationItem.values self !! property_id) as [[]|] eqn:E;
    cbn [fst OperationItem.values]; try exact Hk;
    (destruct (decide (property_id = k)) as [->|Hne];
     [ rewrite Hk in E; inversion E; subst; contradiction
     | now rewrite lookup_insert_ne ]).
Qed.

Lemma set_default_at_fixed (property_id : string) (default_value : pyval)
    (self : OperationItem.t) (entry : description_entry) :
  let self' :=
    (OperationItem.set_default_at property_id default_value self entry).1 in
  OperationItem.name self' = OperationItem.name self
  /\ OperationItem.operation_id self' = OperationItem.operation_id self
  /\ OperationItem.enabled self' = OperationItem.enabled self
  /\ OperationItem.properties self' = OperationItem.properties self.
Proof.
  cbv zeta. unfold OperationItem.set_default_at.
  destruct (String.eqb (entry_property entry) property_id); [|tauto].
  destruct (OperationItem.values self !! property_id) as [[]|]; cbn; tauto.
Qed.

Lemma kept_refl (self : OperationItem.t) : kept self self.
Proof. unfold kept. tauto. Qed.

Lemma kept_trans (a b c : OperationItem.t) : kept a b -> kept b c -> kept a c.
Proof.
  unfold kept. intros (H1 & -> & -> & -> & ->) (H2 & -> & -> & -> & ->).
  repeat split. intros k v Hk Hv. apply H2; [now apply H1 | exact Hv].
Qed.

Lemma set_default_loop_kept (property_id : string) (default_value : pyval)
    (entries : list description_entry) (self : OperationItem.t)
    (done : list description_entry) :
  kept self
    (foldl (fun '(self, done) (entry : description_entry) =>
              let '(self, entry) :=
                OperationItem.set_default_at property_id default_value self
                  entry in
              (self, (done ++ [entry])%list))
           (self, done) entries).1.
Proof.
  revert self done. induction entries as [|entry entries IH]; intros self done.
  - apply kept_refl.
  - cbn [foldl].
    destruct (OperationItem.set_default_at property_id default_value self entry)
      as [self1 entry1] eqn:E.
    apply kept_trans with (b := self1); [|apply IH].
    replace self1 with
      (OperationItem.set_default_at property_id default_value self entry).1
      by now rewrite E.
    split; [intros k v; apply set_default_at_keeps
           | apply set_default_at_fixed].
Qed.

Lemma set_property_default_kept (self : OperationItem.t) (property_id : string)
    (default_value : pyval) :
  kept self (OperationItem.set_property_default self property_id default_value).
Proof.
  unfold OperationItem.set_property_default.
  pose proof (set_default_loop_kept property_id default_value
                (OperationItem.description self) self []) as H.
  destruct (foldl _ _ _) as [self1 entries]. cbn [fst] in H.
  unfold kept in *. cbn. exact H.
Qed.

(** X18.  [update_data_shape_and_dtype] never replaces the value of a
    parameter that is set to something other than None, whatever the new
    shape, and never changes the name, the id, the enabled flag or the
    property list of the item. *)
Theorem update_keeps_set_values (self self' : OperationItem.t)
    (data_shape : list pyval) (data_dtype : string) :
  OperationItem.update_data_shape_and_dtype self data_shape data_dtype
    = Ok self' ->
  (forall k v, OperationItem.values self !! k = Some v -> v <> PNone ->
               OperationItem.values self' !! k = Some v)
  /\ OperationItem.name self' = OperationItem.name self
  /\ OperationItem.operation_id self' = OperationItem.operation_id self
  /\ OperationItem.enabled self' = OperationItem.enabled self
  /\ OperationItem.properties self' = OperationItem.properties self.
Proof.
  unfold OperationItem.update_data_shape_and_dtype.
  destruct (OperationItem.operation self) as [op|];
    [|intros [= <-]; apply kept_refl].
  destruct (property_defaults_for_data_shape_and_dtype op data_shape data_dtype)
    as [default_values|e]; [|discriminate].
  cbn [mbind Py.result_bind]. intros [= <-].
  generalize self. induction default_values as [|[property default_value] rest IH];
    intros self0.
  - apply kept_refl.
  - cbn [foldl]. eapply kept_trans; [|apply IH].
    apply set_property_default_kept.
Qed.

Lemma update_keeps_set_values_witness :
  exists self',
    OperationItem.update_data_shape_and_dtype
      (OperationItem.set_property
         (OperationItem.init builtin_operations "resample-operation")
         "height" (PInt 50))
      [PInt 100; PInt 200] "float64" = Ok self'
    /\ OperationItem.values self' !! "height" = Some (PInt 50)
    /\ OperationItem.values self' !! "width" = Some (PInt 200).
Proof.
  eexists. split; [vm_compute; reflexivity|]. split; [|reflexivity].
  eapply (update_keeps_set_values
            (OperationItem.set_property
               (OperationItem.init builtin_operations "resample-operation")
               "height" (PInt 50))
            _ [PInt 100; PInt 200] "float64").
  - vm_compute. reflexivity.
  - reflexivity.
  - discriminate.
Defined.

End OperationDefaults.

Section OperationResample.

Import Operation.

Lemma eq_refl_int (z : Z) : Py.eq (PInt z) (PInt z) = true.
Proof. rewrite eq_int. apply Z.eqb_refl. Qed.

(** X19.  For an OperationItem built for "resample-operation",
    [update_data_shape_and_dtype] with the shape of a two-dimensional
    array copies height and width into the parameters, after which
    processing that array returns it unchanged.  A later update for
    another shape changes no parameter, so that an array of another shape
    is then scaled to the first shape. *)
Theorem resample_defaults_populate_once (lib : Numerics) (data : ndarray)
    (h w : Z) :
  shape data = [h; w] ->
  exists item,
    OperationItem.update_data_shape_and_dtype
      (OperationItem.init builtin_operations "resample-operation")
      (shape_tuple data) (dtype data) = Ok item
    /\ OperationItem.values item
       = <["width" := PInt w]> (<["height" := PInt h]> ∅)
    /\ OperationItem.process_data lib item data = Ok data
    /\ forall (other : ndarray) (h2 w2 : Z),
         shape other = [h2; w2] ->
         exists item2,
           OperationItem.update_data_shape_and_dtype item
             (shape_tuple other) (dtype other) = Ok item2
           /\ OperationItem.values item2 = OperationItem.values item
           /\ (h2 <> h \/ w2 <> w ->
               OperationItem.process_data lib item2 other
               = Image_scaled lib other (PInt h, PInt w)).
Proof.
  intros Hshape. unfold shape_tuple. rewrite Hshape.
  eexists. split; [vm_compute; reflexivity|].
  split; [vm_compute; reflexivity|].
  split.
  - unfold OperationItem.process_data, process_data_in_place,
      process_data_copy, Resample2d_process_data_copy, shape_tuple,
      ndarray_copy.
    cbn [OperationItem.operation op_class fmap option_fmap option_map].
    rewrite Hshape. cbn [map index lookup list_lookup mbind Py.result_bind].
    change (get_property _ "height" (PInt h)) with (PInt h).
    change (get_property _ "width" (PInt w)) with (PInt w).
    now rewrite !eq_refl_int.
  - intros other h2 w2 Hother. unfold shape_tuple. rewrite Hother.
    eexists. split; [vm_compute; reflexivity|].
    split; [vm_compute; reflexivity|].
    intros Hne.
    unfold OperationItem.process_data, process_data_in_place,
      process_data_copy, Resample2d_process_data_copy, shape_tuple,
      ndarray_copy.
    cbn [OperationItem.operation op_class fmap option_fmap option_map].
    rewrite Hother. cbn [map index lookup list_lookup mbind Py.result_bind].
    change (get_property _ "height" (PInt h2)) with (PInt h).
    change (get_property _ "width" (PInt w2)) with (PInt w).
    rewrite !eq_int.
    destruct (Z.eqb_spec w2 w); destruct (Z.eqb_spec h2 h); cbn [andb];
      try reflexivity. lia.
Qed.

Lemma resample_defaults_populate_once_witness :
  exists item,
    OperationItem.update_data_shape_and_dtype
      (OperationItem.init builtin_operations "resample-operation")
      (shape_tuple two_by_three) (dtype two_by_three) = Ok item
    /\ OperationItem.values item
       = <["width" := PInt 3]> (<["height" := PInt 2]> ∅)
    /\ OperationItem.process_data plain_numerics item two_by_three
       = Ok two_by_three.
Proof.
  destruct (resample_defaults_populate_once plain_numerics two_by_three 2 3)
    as (item & H1 & H2 & H3 & _); [reflexivity|].
  exists item. split; [exact H1|]. split; [exact H2 | exact H3].
Defined.



End OperationResample.

Section OperationGraphics.

Import Operation.

Lemma synced_is_graphic_value (entry_type : string) (g : Binding.owned_graphic)
    (value : pyval) :
  Binding.synced_value entry_type (Some g) = Some value ->
  graphic_value g = Some value.
Proof.
  unfold Binding.synced_value, graphic_value.
  destruct g; [destruct (String.eqb _ _)..|]; congruence.
Qed.

Lemma sync_loop_values (g : Binding.owned_graphic) (k : string)
    (entries : list description_entry) (it : OperationItem.t) :
  let result :=
    foldl (fun (it : OperationItem.t) (entry : description_entry) =>
             match Binding.synced_value (entry_type entry) (Some g) with
             | Some value => Binding.store_synced it (entry_property entry) value
             | None => it
             end) it entries in
  OperationItem.values result !! k
  = (if existsb (fed_by g k) entries then graphic_value g
     else OperationItem.values it !! k)
  /\ attribute_of (OperationItem.operation result) k
     = (if existsb (fed_by g k) entries
        then match OperationItem.operation it with
             | Some _ => graphic_value g
             | None => None
             end
        else attribute_of (OperationItem.operation it) k)
  /\ OperationItem.description result = OperationItem.description it
  /\ OperationItem.enabled result = OperationItem.enabled it
  /\ OperationItem.name result = OperationItem.name it.
Proof.
  cbv zeta. revert it.
  induction entries as [|entry entries IH]; intros it.
  - cbn. tauto.
  - cbn [foldl existsb]. unfold fed_by at 1 3.
    destruct (Binding.synced_value (entry_type entry) (Some g)) as [value|] eqn:E.
    + destruct (IH (Binding.store_synced it (entry_property entry) value))
        as (Hv & Ha & Hd & He & Hn).
      rewrite Hv, Ha, Hd, He, Hn. clear IH Hv Ha Hd He Hn.
      apply synced_is_graphic_value in E.
      cbn [Binding.store_synced OperationItem.values OperationItem.operation
           OperationItem.description OperationItem.enabled OperationItem.name].
      destruct (existsb (fed_by g k) entries).
      * rewrite orb_true_r.
        destruct (OperationItem.operation it); cbn; tauto.
      * rewrite orb_false_r.
        destruct (String.eqb_spec (entry_property entry) k) as [->|Hne].
        -- rewrite lookup_insert_eq.
           destruct (OperationItem.operation it); cbn;
             [rewrite lookup_insert_eq|]; rewrite E; tauto.
        -- rewrite lookup_insert_ne by exact Hne.
           destruct (OperationItem.operation it); cbn;
             [rewrite lookup_insert_ne by exact Hne|]; tauto.
    + cbn [orb]. apply IH.
Qed.

Lemma sync_loop_no_operation (g : Binding.owned_graphic)
    (entries : list description_entry) (it : OperationItem.t) :
  OperationItem.operation it = None ->
  OperationItem.operation
    (foldl (fun (it : OperationItem.t) (entry : description_entry) =>
              match Binding.synced_value (entry_type entry) (Some g) with
              | Some value => Binding.store_synced it (entry_property entry) value
              | None => it
              end) it entries) = None.
Proof.
  revert it. induction entries as [|e l IH]; intros it Hit; cbn [foldl].
  - exact Hit.
  - destruct (Binding.synced_value (entry_type e) (Some g));
      apply IH; cbn; now rewrite ?Hit.
Qed.

Lemma sync_loop_unfed (g : Binding.owned_graphic)
    (entries : list description_entry) (it : OperationItem.t) :
  graphic_value g = None ->
  foldl (fun (it : OperationItem.t) (entry : description_entry) =>
           match Binding.synced_value (entry_type entry) (Some g) with
           | Some value => Binding.store_synced it (entry_property entry) value
           | None => it
           end) it entries = it.
Proof.
  intros Hnone. revert it.
  induction entries as [|e l IH]; intros it; cbn [foldl]; [reflexivity|].
  destruct (Binding.synced_value (entry_type e) (Some g)) as [value|] eqn:E;
    [|apply IH].
  apply synced_is_graphic_value in E. congruence.
Qed.

(** X21.  After a graphic is attached to an OperationItem, every
    parameter whose description entry has the type the graphic feeds, "line"
    for a line and "rectangle" for a rectangle, holds the geometry of the
    graphic, in the values of the item and on its operation, whatever was
    set before; all other parameters are as they were.  An ellipse feeds
    no parameter.  Detaching the graphic keeps the values. *)
Theorem attached_graphic_wins (self : Binding.t) (g : Binding.owned_graphic)
    (k : string) :
  let bound := Binding.set_graphic self "graphic" (Some g) in
  let fed := existsb (fed_by g k) (OperationItem.description (Binding.item self)) in
  Binding.graphic bound = Some g
  /\ (fed = true ->
      OperationItem.values (Binding.item bound) !! k = graphic_value g
      /\ forall op, OperationItem.operation (Binding.item bound) = Some op ->
                    attributes op !! k = graphic_value g)
  /\ (fed = false ->
      OperationItem.values (Binding.item bound) !! k
      = OperationItem.values (Binding.item self) !! k)
  /\ (graphic_value g = None -> Binding.item bound = Binding.item self)
  /\ Binding.set_graphic bound "graphic" None
     = {| Binding.item := Binding.item bound; Binding.graphic := None |}.
Proof.
  cbv zeta. unfold Binding.set_graphic. cbn [String.eqb Ascii.eqb Bool.eqb].
  unfold Binding.sync_graphic. cbn [Binding.item Binding.graphic].
  pose proof (sync_loop_values g k
                (OperationItem.description (Binding.item self))
                (Binding.item self)) as H.
  cbv zeta in H. destruct H as (Hv & Ha & _).
  split; [reflexivity|]. split; [|split; [|split]].
  - intros Hfed. rewrite Hfed in Hv, Ha. split; [exact Hv|].
    intros op Hop. rewrite Hop in Ha. cbn [attribute_of] in Ha. rewrite Ha.
    destruct (OperationItem.operation (Binding.item self)) eqn:E;
      [reflexivity|].
    rewrite (sync_loop_no_operation g _ _ E) in Hop. discriminate.
  - intros Hfed. now rewrite Hfed in Hv.
  - intros Hnone. now rewrite sync_loop_unfed.
  - reflexivity.
Qed.

(** A line attached to a line profile item. *)
Example line_profile_follows_line :
  let bound :=
    Binding.set_graphic
      (Binding.init builtin_operations "line-profile-operation") "graphic"
      (Some (Binding.OfLine
               (Graphics.LineGraphic.set_end Graphics.LineGraphic.init
                  (0.5, 0.25)%Q))) in
  OperationItem.values (Binding.item bound) !! "vector"
  = Some (PTuple [PTuple [PFloat 0; PFloat 0]; PTuple [PFloat 0.5; PFloat 0.25]]).
Proof. vm_compute. reflexivity. Qed.

(** X22.  A deep copy of an item without a graphic has the values, the id
    and the enabled flag of the original, but its operation is the one the
    registry builds for the id: parameters set on the original are in the
    values of the copy and not on its operation. *)
Theorem deepcopy_keeps_values_only (operations : registry) (self : Binding.t) :
  Binding.graphic self = None ->
  let copy := Binding.deepcopy operations self in
  OperationItem.values (Binding.item copy)
    = OperationItem.values (Binding.item self)
  /\ OperationItem.enabled (Binding.item copy)
     = OperationItem.enabled (Binding.item self)
  /\ OperationItem.operation_id (Binding.item copy)
     = OperationItem.operation_id (Binding.item self)
  /\ Binding.graphic copy = None
  /\ OperationItem.operation (Binding.item copy)
     = build_operation operations
         (OperationItem.operation_id (Binding.item self)).
Proof.
  intros Hg. cbv zeta. unfold Binding.deepcopy, Binding.deepcopy_from.
  rewrite Hg. unfold Binding.set_graphic, Binding.init.
  cbn [String.eqb Ascii.eqb Bool.eqb Binding.item Binding.graphic
       OperationItem.values OperationItem.enabled OperationItem.operation_id
       OperationItem.operation OperationItem.init].
  split; [apply (right_id_L ∅ (∪))|]. repeat split.
Qed.

Lemma deepcopy_keeps_values_only_witness :
  OperationItem.values (Binding.item (Binding.deepcopy builtin_operations blur_item))
    = OperationItem.values (Binding.item blur_item)
  /\ OperationItem.operation
       (Binding.item (Binding.deepcopy builtin_operations blur_item))
     = build_operation builtin_operations "gaussian-blur-operation".
Proof.
  destruct (deepcopy_keeps_values_only builtin_operations blur_item)
    as (H1 & _ & _ & _ & H2); [reflexivity|].
  split; [exact H1 | exact H2].
Defined.

(** The radius set on the original is used by the original and not by its
    copy. *)
Example copy_blurs_with_default_radius :
  attribute_of (OperationItem.operation (Binding.item blur_item)) "sigma"
  = Some (PFloat 0.7)
  /\ attribute_of
       (OperationItem.operation
          (Binding.item (Binding.deepcopy builtin_operations blur_item)))
       "sigma"
     = Some (PFloat 0.3).
Proof. split; vm_compute; reflexivity. Qed.

End OperationGraphics.

(** ** Symbolic: variables *)

Section SymbolicVariables.

Import Symbolic.

Lemma scalar_type_cases (value_type : string) (P : string -> Prop) :
  In value_type scalar_types ->
  P "boolean" -> P "integral" -> P "real" -> P "complex" -> P "string" ->
  P value_type.
Proof.
  unfold scalar_types. simpl.
  intros [<-|[<-|[<-|[<-|[<-|[]]]]]]; auto.
Qed.

(** X23.  Assigning one of the five scalar types to [variable_type]
    succeeds from every state in which the variable has another type.
    Afterwards [variable_type] reads back the type, the specifier is None,
    the control type is the one of the fixed table, the default is of the
    new type, there is no range, [value] is what it was, the last event is
    [variable_type_changed_event], and assigning the same type again
    changes nothing and fires nothing. *)
Theorem scalar_type_assignment (self : ComputationVariable.t)
    (value_type : string) :
  In value_type scalar_types ->
  Py.eq (PStr value_type) (ComputationVariable.variable_type self) = false ->
  exists self',
    ComputationVariable.set_variable_type self value_type
      = ComputationVariable.Returned self'
    /\ ComputationVariable.variable_type self' = PStr value_type
    /\ ComputationVariable.specifier self' = None
    /\ ComputationVariable.control_type self'
       = ComputationVariable.control_type_default value_type
    /\ (ComputationVariable.value_default self' = PNone
        \/ has_value_type value_type (ComputationVariable.value_default self'))
    /\ ComputationVariable.has_range self' = false
    /\ ComputationVariable.value self' = ComputationVariable.value self
    /\ last (ComputationVariable.events self') = Some VariableTypeChangedEvent
    /\ ComputationVariable.set_variable_type self' value_type
       = ComputationVariable.Returned self'.
Proof.
  intros Hin Hne.
  unfold ComputationVariable.set_variable_type at 1. rewrite Hne.
  revert Hne.
  apply (scalar_type_cases value_type
           (fun value_type =>
              Py.eq (PStr value_type) (ComputationVariable.variable_type self)
              = false ->
              exists self',
                match
                  (if existsb (String.eqb value_type)
                        ["boolean"; "integral"; "real"; "complex"; "string"]
                   then ComputationVariable.Returned
                          (ComputationVariable.set_scalar_type self value_type)
                   else if existsb (String.eqb value_type)
                             ComputationVariable.data_types
                   then ComputationVariable.set_data_type self value_type
                   else if Py.contains "region" value_type
                   then ComputationVariable.set_region_type self value_type
                   else ComputationVariable.Returned self)
                with
                | ComputationVariable.Returned self0 =>
                    ComputationVariable.Returned
                      (ComputationVariable.fire self0 VariableTypeChangedEvent)
                | ComputationVariable.Raised e self0 =>
                    ComputationVariable.Raised e self0
                end = ComputationVariable.Returned self'
                /\ ComputationVariable.variable_type self' = PStr value_type
                /\ ComputationVariable.specifier self' = None
                /\ ComputationVariable.control_type self'
                   = ComputationVariable.control_type_default value_type
                /\ (ComputationVariable.value_default self' = PNone
                    \/ has_value_type value_type
                         (ComputationVariable.value_default self'))
                /\ ComputationVariable.has_range self' = false
                /\ ComputationVariable.value self'
                   = ComputationVariable.value self
                /\ last (ComputationVariable.events self')
                   = Some VariableTypeChangedEvent
                /\ ComputationVariable.set_variable_type self' value_type
                   = ComputationVariable.Returned self') Hin);
    intros _; eexists; (split; [reflexivity|]);
    (split; [reflexivity|]); (split; [reflexivity|]);
    (split; [reflexivity|]);
    (split; [first [left; reflexivity | right; constructor]|]);
    (split; [reflexivity|]); (split; [reflexivity|]);
    (split; [cbn; apply last_snoc|]); reflexivity.
Qed.

Lemma scalar_type_assignment_witness :
  exists self',
    ComputationVariable.set_variable_type reference_variable "boolean"
      = ComputationVariable.Returned self'
    /\ ComputationVariable.variable_type self' = PStr "boolean"
    /\ ComputationVariable.specifier self' = None.
Proof.
  destruct (scalar_type_assignment reference_variable "boolean")
    as (self' & H1 & H2 & H3 & _).
  - left. reflexivity.
  - reflexivity.
  - exists self'. split; [exact H1|]. split; [exact H2 | exact H3].
Defined.

(** X24.  For a variable with a non-empty specifier, assigning "data" or
    "display_data" to [variable_type] succeeds when the specifier is of a
    data type or has a uuid.  The specifier then has type "data_item" and
    the assigned kind as its property, [variable_type] reads back the
    kind, and the uuid is kept when the specifier was of a data type and
    dropped when it was not. *)
Theorem data_kind_assignment (self : ComputationVariable.t)
    (spec : gmap string pyval) (kind : string) :
  ComputationVariable.specifier self = Some spec ->
  spec <> ∅ ->
  In kind ["data"; "display_data"] ->
  Py.eq (PStr kind) (ComputationVariable.variable_type self) = false ->
  in_strings (dict_get spec "type") ComputationVariable.data_types = true
  \/ is_Some (spec !! "uuid") ->
  exists self' spec',
    ComputationVariable.set_variable_type self kind
      = ComputationVariable.Returned self'
    /\ ComputationVariable.specifier self' = Some spec'
    /\ spec' !! "type" = Some (PStr "data_item")
    /\ spec' !! "property" = Some (PStr kind)
    /\ spec' !! "uuid"
       = (if in_strings (dict_get spec "type") ComputationVariable.data_types
          then spec !! "uuid" else None)
    /\ spec' !! "version" = spec !! "version"
    /\ ComputationVariable.variable_type self' = PStr kind
    /\ ComputationVariable.value_type self' = None
    /\ last (ComputationVariable.events self') = Some VariableTypeChangedEvent.
Proof.
  intros Hspec Hne Hkind Hdiff Hok.
  unfold ComputationVariable.set_variable_type. rewrite Hdiff.
  assert (Hbranch :
    exists spec',
      ComputationVariable.set_data_type self kind
      = ComputationVariable.Returned
          (ComputationVariable.set_specifier
             (ComputationVariable.clear_scalar_fields self) (Some spec'))
      /\ spec' = <["property" := PStr kind]>
                   (<["type" := PStr "data_item"]>
                      (if in_strings (dict_get spec "type")
                            ComputationVariable.data_types
                       then spec else delete "uuid" spec))).
  { unfold ComputationVariable.set_data_type,
      ComputationVariable.specifier_or_new.
    cbn [ComputationVariable.clear_scalar_fields
         ComputationVariable.set_value_type ComputationVariable.set_control_type
         ComputationVariable.set_value_default ComputationVariable.set_value_min
         ComputationVariable.set_value_max ComputationVariable.specifier].
    rewrite Hspec. destruct (decide (spec = ∅)) as [|_]; [contradiction|].
    assert (Hk : existsb (String.eqb kind) ["data"; "display_data"] = true).
    { simpl in Hkind. destruct Hkind as [<-|[<-|[]]]; reflexivity. }
    destruct (in_strings (dict_get spec "type") ComputationVariable.data_types)
      eqn:E; cbn [negb].
    - rewrite Hk. eexists. split; reflexivity.
    - destruct Hok as [Hok|[u Hu]]; [discriminate|].
      unfold dict_del. rewrite Hu, Hk. eexists. split; reflexivity. }
  destruct Hbranch as (spec' & Hbranch & Hspec').
  assert (Hsel : forall A (a b c : A),
             (if existsb (String.eqb kind)
                   ["boolean"; "integral"; "real"; "complex"; "string"]
              then a
              else if existsb (String.eqb kind) ComputationVariable.data_types
              then b else c) = b).
  { intros A a b c. simpl in Hkind.
    destruct Hkind as [<-|[<-|[]]]; reflexivity. }
  rewrite Hsel, Hbranch.
  assert (Hprop : spec' !! "property" = Some (PStr kind)).
  { rewrite Hspec'. apply lookup_insert_eq. }
  assert (Htruthy : Py.truthy (PStr kind) = true).
  { simpl in Hkind. destruct Hkind as [<-|[<-|[]]]; reflexivity. }
  exists (ComputationVariable.fire
            (ComputationVariable.set_specifier
               (ComputationVariable.clear_scalar_fields self) (Some spec'))
            VariableTypeChangedEvent), spec'.
  split; [reflexivity|]. split; [reflexivity|].
  split.
  { rewrite Hspec'. rewrite lookup_insert_ne by discriminate.
    apply lookup_insert_eq. }
  split; [exact Hprop|].
  split.
  { rewrite Hspec'. rewrite !lookup_insert_ne by discriminate.
    destruct (in_strings _ _); [reflexivity | apply lookup_delete_eq]. }
  split.
  { rewrite Hspec'. rewrite !lookup_insert_ne by discriminate.
    destruct (in_strings _ _); [reflexivity|].
    now rewrite lookup_delete_ne by discriminate. }
  split.
  { unfold ComputationVariable.variable_type.
    cbn [ComputationVariable.fire ComputationVariable.set_specifier
         ComputationVariable.clear_scalar_fields
         ComputationVariable.set_value_type ComputationVariable.set_control_type
         ComputationVariable.set_value_default ComputationVariable.set_value_min
         ComputationVariable.set_value_max ComputationVariable.value_type
         ComputationVariable.specifier].
    unfold dict_get. rewrite Hprop.
    change (default PNone (Some (PStr kind))) with (PStr kind).
    now rewrite Htruthy. }
  split; [reflexivity|].
  cbn. apply last_snoc.
Qed.

Lemma data_kind_assignment_witness :
  exists self' spec',
    ComputationVariable.set_variable_type
      (ComputationVariable.init "5d02" (Some "r") None PNone PNone PNone PNone
         None (Some region_reference) None) "data"
      = ComputationVariable.Returned self'
    /\ ComputationVariable.specifier self' = Some spec'
    /\ spec' !! "type" = Some (PStr "data_item")
    /\ spec' !! "property" = Some (PStr "data")
    /\ spec' !! "uuid" = None.
Proof.
  destruct (data_kind_assignment
              (ComputationVariable.init "5d02" (Some "r") None PNone PNone PNone
                 PNone None (Some region_reference) None)
              region_reference "data")
    as (self' & spec' & H1 & H2 & H3 & H4 & H5 & _).
  - reflexivity.
  - intros H. apply (f_equal (fun m => m !! "uuid")) in H. discriminate H.
  - left. reflexivity.
  - reflexivity.
  - right. eexists. reflexivity.
  - exists self', spec'. repeat split; assumption.
Defined.

(** X25.  Whatever is stored, the reader of a scalar variable returns
    None or a value of the declared type, and whatever value is handed to
    the writer, what it stores under the key is of the stored form of the
    declared type; when either of them cannot convert, it raises.  A
    variable without value type stores nothing and reads None. *)
Theorem values_are_of_declared_type (text : Py.Text)
    (self : ComputationVariable.t) (key : string)
    (properties : gmap string pyval) (value_type : string) :
  ComputationVariable.value_type self = Some value_type ->
  In value_type scalar_types ->
  (forall value,
     ComputationVariable.value_reader text self key properties = Ok value ->
     value = PNone \/ has_value_type value_type value)
  /\ (forall value stored,
        value <> PNone ->
        ComputationVariable.value_writer text self key properties value
          = Ok stored ->
        exists v, stored !! key = Some v /\ stored_as value_type v)
  /\ (forall other : ComputationVariable.t,
        ComputationVariable.value_type other = None ->
        forall value,
          ComputationVariable.value_writer text other key properties value
            = Ok properties
          /\ ComputationVariable.value_reader text other key properties
             = Ok PNone).
Proof.
  intros Htype Hin. split; [|split].
  - intros value. unfold ComputationVariable.value_reader. rewrite Htype.
    destruct (dict_get properties key) eqn:Eraw;
      try (intros [= <-]; now left);
      revert Eraw;
      apply (scalar_type_cases value_type
               (fun vt => _ -> _ = Ok value ->
                          value = PNone \/ has_value_type vt value) Hin);
      intros _; cbn -[Py.to_int Py.to_float Py.to_complex_star Py.to_str Py.truthy];
      try (intros [= <-]; right; constructor);
      match goal with
      | |- context [Py.to_int ?t ?v] => destruct (Py.to_int t v)
      | |- context [Py.to_float ?t ?v] => destruct (Py.to_float t v)
      | |- context [Py.to_complex_star ?t ?v] =>
          destruct (Py.to_complex_star t v)
      end; cbn; try discriminate; intros [= <-]; right; constructor.
  - intros value stored Hvalue.
    unfold ComputationVariable.value_writer. rewrite Htype.
    destruct value; try contradiction;
      apply (scalar_type_cases value_type
               (fun vt => _ = Ok stored ->
                          exists v, stored !! key = Some v /\ stored_as vt v)
               Hin);
      cbn -[Py.to_int Py.to_float Py.to_complex Py.to_str Py.truthy];
      try (intros [= <-]; rewrite lookup_insert_eq; eexists;
           split; [reflexivity | constructor]);
      match goal with
      | |- context [Py.to_int ?t ?v] => destruct (Py.to_int t v)
      | |- context [Py.to_float ?t ?v] => destruct (Py.to_float t v)
      | |- context [Py.to_complex ?t ?v] => destruct (Py.to_complex t v)
      end; cbn; try discriminate;
      intros [= <-]; rewrite lookup_insert_eq; eexists;
      (split; [reflexivity | constructor]).
  - intros other Hother value.
    unfold ComputationVariable.value_writer, ComputationVariable.value_reader.
    rewrite Hother. split.
    + now destruct value.
    + now destruct (dict_get properties key).
Qed.

Lemma values_are_of_declared_type_witness :
  ComputationVariable.value_reader Py.plain_text real_variable "value"
    {[ "value" := PInt 2 ]} = Ok (PFloat 2)
  /\ (PFloat 2 = PNone \/ has_value_type "real" (PFloat 2)).
Proof.
  split; [reflexivity|].
  apply (values_are_of_declared_type Py.plain_text real_variable "value"
           {[ "value" := PInt 2 ]} "real").
  - reflexivity.
  - right. right. left. reflexivity.
  - reflexivity.
Defined.

(** An integer stored for a real variable is read as a float, a float
    stored for an integral variable is cut towards zero, and text that is
    no number makes the reader raise. *)
Example reader_converts :
  ComputationVariable.value_reader Py.plain_text real_variable "value"
    {[ "value" := PInt 2 ]} = Ok (PFloat 2)
  /\ ComputationVariable.value_reader Py.plain_text
       (ComputationVariable.set_value_type real_variable (Some "integral"))
       "value" {[ "value" := PFloat (-2.5) ]} = Ok (PInt (-2))
  /\ ComputationVariable.value_reader Py.plain_text real_variable "value"
       {[ "value" := PStr "wide" ]} = Raise ValueError.
Proof. repeat split. Qed.

End SymbolicVariables.

(** ** Symbolic: programs and evaluation *)

Section SymbolicPrograms.

Import Symbolic.

Lemma split_not_empty (s : string) : Py.split Py.LF s <> [].
Proof.
  destruct s as [|c rest]; cbn [Py.split]; [discriminate|].
  destruct (Ascii.eqb c Py.LF); [discriminate|].
  destruct (Py.split Py.LF rest); discriminate.
Qed.

Lemma split_one_line (s : string) :
  one_line s = true -> Py.split Py.LF s = [s].
Proof.
  induction s as [|c rest IH]; cbn [one_line Py.split]; [reflexivity|].
  intros H. apply andb_true_iff in H. destruct H as [Hc Hrest].
  apply negb_true_iff in Hc. rewrite Hc, (IH Hrest). reflexivity.
Qed.

Lemma split_app (a b : string) :
  Py.split Py.LF (a +:+ Py.newline +:+ b)
  = (Py.split Py.LF a ++ Py.split Py.LF b)%list.
Proof.
  induction a as [|c rest IH].
  - reflexivity.
  - change (String c rest +:+ Py.newline +:+ b)
      with (String c (rest +:+ Py.newline +:+ b)).
    cbn [Py.split]. rewrite IH.
    destruct (Ascii.eqb c Py.LF); [reflexivity|].
    pose proof (split_not_empty rest) as Hne.
    destruct (Py.split Py.LF rest) as [|part parts]; [contradiction|].
    reflexivity.
Qed.

Lemma concat_cons (sep x : string) (xs : list string) :
  xs <> [] -> String.concat sep (x :: xs) = x +:+ sep +:+ String.concat sep xs.
Proof. destruct xs; [contradiction|reflexivity]. Qed.

Lemma append_cons (c : Ascii.ascii) (a b : string) :
  String c a +:+ b = String c (a +:+ b).
Proof. reflexivity. Qed.

Lemma append_assoc (a b c : string) : (a +:+ b) +:+ c = a +:+ (b +:+ c).
Proof.
  induction a as [|ch a IH]; [reflexivity|].
  now rewrite !append_cons, IH.
Qed.

Lemma concat_snoc (sep x : string) (xs : list string) :
  xs <> [] ->
  String.concat sep (xs ++ [x]) = String.concat sep xs +:+ sep +:+ x.
Proof.
  induction xs as [|y ys IH]; [contradiction|]. intros _.
  destruct ys as [|z zs].
  - reflexivity.
  - change ((y :: z :: zs) ++ [x])%list with (y :: ((z :: zs) ++ [x]))%list.
    rewrite (concat_cons sep y ((z :: zs) ++ [x])) by (simpl; discriminate).
    rewrite IH by discriminate.
    rewrite (concat_cons sep y (z :: zs)) by discriminate.
    now rewrite !append_assoc.
Qed.

Lemma join_split (s : string) :
  String.concat Py.newline (Py.split Py.LF s) = s.
Proof.
  induction s as [|c rest IH]; [reflexivity|].
  cbn [Py.split]. pose proof (split_not_empty rest) as Hne.
  destruct (Ascii.eqb c Py.LF) eqn:E.
  - apply Ascii.eqb_eq in E. subst c.
    rewrite concat_cons by exact Hne. now rewrite IH.
  - destruct (Py.split Py.LF rest) as [|part parts]; [contradiction|].
    destruct parts as [|part2 parts].
    + cbn [String.concat] in IH |- *. now rewrite IH.
    + rewrite concat_cons by discriminate.
      rewrite concat_cons in IH by discriminate.
      rewrite append_cons. now rewrite IH.
Qed.

(** X26.  The program assembled from an expression is the expression
    with the line [import uuid] put before it and [result = ] put before
    its last line: all lines before the last are kept as they are. *)
Theorem assembled_program (before last : string) :
  one_line last = true ->
  Evaluation.assemble_code last
  = "import uuid" +:+ Py.newline +:+ "result = " +:+ last
  /\ Evaluation.assemble_code (before +:+ Py.newline +:+ last)
     = "import uuid" +:+ Py.newline +:+ before +:+ Py.newline
       +:+ "result = " +:+ last.
Proof.
  intros Hlast. unfold Evaluation.assemble_code. split.
  - rewrite (split_one_line last Hlast). reflexivity.
  - rewrite split_app, (split_one_line last Hlast).
    rewrite removelast_last, last_last.
    change (["import uuid"] ++ Py.split Py.LF before
            ++ ["result = " +:+ last])%list
      with ("import uuid" :: (Py.split Py.LF before
                              ++ ["result = " +:+ last]))%list.
    rewrite concat_cons
      by (destruct (Py.split Py.LF before); discriminate).
    rewrite concat_snoc by apply split_not_empty.
    rewrite join_split. reflexivity.
Qed.

Lemma assembled_program_witness :
  one_line "math.pi" = true
  /\ Evaluation.assemble_code ("import math" +:+ Py.newline +:+ "math.pi")
     = "import uuid" +:+ Py.newline +:+ "import math" +:+ Py.newline
       +:+ "result = " +:+ "math.pi".
Proof.
  split; [reflexivity|].
  apply (assembled_program "import math" "math.pi"). reflexivity.
Defined.

(** X27.  When the program of a non-empty expression has been assembled,
    [__parse_expression] raises exactly when the program raises an
    exception that does not derive from [Exception], and raises that
    exception.  In every other case it returns: either the program
    completed and bound [result], and then that value is cached and
    [error_text] is None, or the cached result is None and [error_text]
    is "Execution Error"; the pending parse is cleared and expression,
    variables and latch are as before. *)
Theorem parse_outcome (rt : Runtime) (self : Computation.t)
    (expression code : string) (g : globals) :
  expression <> "" ->
  Evaluation.assemble rt self expression = Ok (code, g) ->
  (forall e,
     Evaluation.parse_expression rt self (Some expression) = Raise e
     <-> exec rt code g = Failed e /\ Py.is_exception e = false)
  /\ ((forall e, exec rt code g = Failed e -> Py.is_exception e = true) ->
      exists self',
        Evaluation.parse_expression rt self (Some expression) = Ok self'
        /\ Computation.needs_parse self' = false
        /\ ((exists l r,
               exec rt code g = Completed l /\ l !! "result" = Some r
               /\ Computation.data_and_metadata self' = r
               /\ Computation.error_text self' = None)
            \/ (~ (exists l r,
                     exec rt code g = Completed l /\ l !! "result" = Some r)
                /\ Computation.data_and_metadata self' = PNone
                /\ Computation.error_text self' = Some "Execution Error"))
        /\ Computation.original_expression self'
           = Computation.original_expression self
        /\ Computation.variables self' = Computation.variables self
        /\ Computation.evaluating self' = Computation.evaluating self).
Proof.
  intros Hne Hasm.
  destruct expression as [|c rest]; [contradiction|].
  unfold Evaluation.parse_expression. rewrite Hasm.
  cbn [mbind Py.result_bind]. unfold Evaluation.run.
  destruct (exec rt code g) as [l|e] eqn:Eexec.
  - split.
    { intros e'. split.
      - destruct (l !! "result"); discriminate.
      - intros [H _]. discriminate. }
    intros _. destruct (l !! "result") as [r|] eqn:Er.
    + eexists. split; [reflexivity|]. split; [reflexivity|].
      split; [|repeat split].
      left. exists l, r. repeat split. exact Er.
    + eexists. split; [reflexivity|]. split; [reflexivity|].
      split; [|repeat split].
      right. split; [|split; reflexivity].
      intros (l' & r & Hl & Hr). inversion Hl; subst. congruence.
  - split.
    { intros e'. destruct (Py.is_exception e) eqn:Ee; split.
      - discriminate.
      - intros [H H']. injection H as <-. congruence.
      - intros H. injection H as <-. now split.
      - intros [H _]. injection H as <-. reflexivity. }
    intros Hcaught. rewrite (Hcaught e eq_refl).
    eexists. split; [reflexivity|]. split; [reflexivity|].
    split; [|repeat split].
    right. split; [|split; reflexivity].
    intros (l' & r & Hl & _). discriminate.
Qed.

Lemma parse_outcome_witness :
  exists self',
    Evaluation.parse_expression plain_runtime
      (Computation.bind (Computation.init (Some "1 - 1")) empty_host)
      (Some "1 - 1") = Ok self'
    /\ Computation.needs_parse self' = false
    /\ Computation.data_and_metadata self' = PInt 0.
Proof.
  destruct (parse_outcome plain_runtime
              (Computation.bind (Computation.init (Some "1 - 1")) empty_host)
              "1 - 1" (Evaluation.assemble_code "1 - 1")
              (<[Some "region_by_uuid" := Evaluation.region_by_uuid_partial]>
                 (<[Some "data_by_uuid" := Evaluation.data_by_uuid_partial]> ∅)))
    as [_ H].
  - discriminate.
  - reflexivity.
  - destruct H as (self' & H1 & H2 & _).
    + intros e He. vm_compute in He. discriminate.
    + exists self'. split; [exact H1|]. split; [exact H2|].
      vm_compute in H1. injection H1 as <-. reflexivity.
Defined.

(** X28.  When no parse is pending, [evaluate] returns the cached result
    without running anything: the answer does not depend on the
    interpreter, result and error text stay, the evaluation count goes up
    by one and [needs_update] is cleared. *)
Theorem evaluate_uses_cache (rt : Runtime) (self : Computation.t) :
  Computation.needs_parse self = false ->
  exists self',
    Evaluation.evaluate rt self = Ok (Computation.data_and_metadata self, self')
    /\ (forall rt', Evaluation.evaluate rt' self = Evaluation.evaluate rt self)
    /\ Computation.data_and_metadata self' = Computation.data_and_metadata self
    /\ Computation.error_text self' = Computation.error_text self
    /\ Computation.evaluation_count_for_test self'
       = S (Computation.evaluation_count_for_test self)
    /\ Computation.needs_update self' = false
    /\ Computation.needs_parse self' = false.
Proof.
  intros Hparse. unfold Evaluation.evaluate.
  cbn [Computation.needs_parse Computation.original_expression].
  rewrite Hparse. cbn [mbind Py.result_bind].
  eexists. split; [reflexivity|].
  cbn. repeat split; try assumption. lia.
Qed.

(** X29.  A computation that was never bound cannot evaluate a non-empty
    expression: [evaluate] raises AttributeError.  Without an expression,
    or with the empty one, [evaluate] returns None, bound or not, and the
    parse stays pending. *)
Theorem evaluate_before_bind (rt : Runtime) (expression : string) :
  expression <> "" ->
  Evaluation.evaluate rt (Computation.init (Some expression))
    = Raise (AttributeError "_Computation__computation_context")
  /\ (forall no_expression,
        no_expression = None \/ no_expression = Some "" ->
        forall self,
          self = Computation.init no_expression
          \/ (exists context,
                self = Computation.bind (Computation.init no_expression)
                         context) ->
          exists self',
            Evaluation.evaluate rt self = Ok (PNone, self')
            /\ Computation.needs_parse self' = true
            /\ Computation.error_text self' = None).
Proof.
  intros Hne. split.
  - destruct expression as [|c rest]; [contradiction|]. reflexivity.
  - intros no_expression [->| ->] self [->|[context ->]];
      eexists; split; reflexivity || (split; reflexivity).
Qed.

Lemma evaluate_uses_cache_witness :
  exists self' self'',
    Evaluation.evaluate plain_runtime failing_computation = Ok (PNone, self')
    /\ Evaluation.evaluate plain_runtime self' = Ok (PNone, self'')
    /\ Computation.evaluation_count_for_test self'' = 2%nat.
Proof.
  eexists. 
  destruct (evaluate_uses_cache plain_runtime
              (Evaluation.store_result
                 {| Computation.original_expression := Some "undefined_name + 1";
                    Computation.error_text := None;
                    Computation.evaluate_error := None;
                    Computation.label := None;
                    Computation.variables := [];
                    Computation.evaluating := false;
                    Computation.data_and_metadata := PNone;
                    Computation.needs_update := false;
                    Computation.evaluation_count_for_test := 1;
                    Computation.needs_parse := true;
                    Computation.computation_context := Some empty_host;
                    Computation.events := [] |}
                 PNone (Some "Execution Error")))
    as (self'' & H1 & _ & _ & _ & H5 & _); [reflexivity|].
  exists self''. split; [reflexivity|]. split; [exact H1 | exact H5].
Defined.

Lemma evaluate_before_bind_witness :
  Evaluation.evaluate plain_runtime (Computation.init (Some "a + b"))
  = Raise (AttributeError "_Computation__computation_context").
Proof.
  apply (evaluate_before_bind plain_runtime "a + b"). discriminate.
Defined.

(** X30.  Assigning to [expression] the expression the computation has
    changes nothing.  Assigning the empty expression runs no program: the
    result and the error text of the previous expression stay, the
    computation is marked as needing an update, and [evaluate] goes on
    returning the previous result, whether or not a parse was pending. *)
Theorem clearing_expression_keeps_result (rt : Runtime) (self : Computation.t) :
  Computation.original_expression self <> Some "" ->
  Evaluation.set_expression rt self (Computation.original_expression self)
    = Ok self
  /\ exists self' self'',
       Evaluation.set_expression rt self (Some "") = Ok self'
       /\ Computation.original_expression self' = Some ""
       /\ Computation.needs_update self' = true
       /\ Computation.data_and_metadata self'
          = Computation.data_and_metadata self
       /\ Computation.error_text self' = Computation.error_text self
       /\ Evaluation.evaluate rt self'
          = Ok (Computation.data_and_metadata self, self'').
Proof.
  intros Hne.
  assert (Hev : forall c, Computation.original_expression c = Some "" ->
            exists c'', Evaluation.evaluate rt c
                        = Ok (Computation.data_and_metadata c, c'')).
  { intros c Hc. unfold Evaluation.evaluate.
    cbn [Computation.needs_parse Computation.original_expression].
    rewrite Hc. destruct (Computation.needs_parse c); eexists; reflexivity. }
  unfold Evaluation.set_expression. split.
  - destruct (decide _) as [_|H]; [reflexivity|contradiction].
  - destruct (decide (Some "" = Computation.original_expression self))
      as [H|_]; [symmetry in H; contradiction|].
    cbn [Evaluation.parse_expression mbind Py.result_bind].
    match goal with
    | |- exists s' s'', Ok ?c = Ok s' /\ _ =>
        destruct (Hev c eq_refl) as [c'' Hc'']; exists c, c''
    end.
    repeat split. exact Hc''.
Qed.

Lemma clearing_expression_keeps_result_witness :
  Computation.original_expression (Computation.init (Some "a + b")) <> Some ""
  /\ Evaluation.set_expression plain_runtime (Computation.init (Some "a + b"))
       (Some "a + b")
     = Ok (Computation.init (Some "a + b")).
Proof.
  split; [discriminate|].
  apply (clearing_expression_keeps_result plain_runtime
           (Computation.init (Some "a + b"))).
  discriminate.
Defined.

End SymbolicPrograms.
